(** * DataVisualization.py: the data-transformation pipeline

    A shallow embedding of the table pipeline of [DataVisualization.py]
    (table selection, team normalisation, expansion of the per-team year
    lists into the finals table, ISO code lookup, per-year lookup) and the
    properties its specification states about it.

    Conventions.
    - Text is a [string], i.e. a byte string: the UTF-8 encoding of the
      Python text, so that a non-ASCII character such as the em-dash is the
      sequence of its bytes.  [str.strip] knows the white space of Unicode.
    - Python's [int] on text is a parameter, [py_int]: the properties hold
      for whatever literals it reads.  [PyStr.int] reads ASCII literals and is
      used where a value has to be computed.
    - Python integers are [Z]; a cell of a 64-bit column has its wrap-around
      written out.
    - A raised exception is a value of [exn]; a computation that may raise
      returns a [result]. *)

From Stdlib Require Import ZArith String Ascii List Lia.
From stdpp Require Import base option list strings gmap pretty sorting.

Local Open Scope Z_scope.

(** ** Exceptions and results *)

(** The Python exceptions the modelled statements can raise. *)
Inductive exn : Type :=
  | NameError      (* use of a global that was never assigned *)
  | ValueError     (* int() on a malformed token, length mismatch, NaN cast *)
  | OverflowError  (* a parsed count does not fit the int64 column *)
  | KeyError       (* DataFrame column that does not exist *)
  | IndexError     (* .iloc[0] on an empty selection *)
  | AttributeError. (* a text method asked of what is not text *)

Definition exn_name (e : exn) : string :=
  match e with
  | NameError => "NameError"
  | ValueError => "ValueError"
  | OverflowError => "OverflowError"
  | KeyError => "KeyError"
  | IndexError => "IndexError"
  | AttributeError => "AttributeError"
  end.

Inductive result (A : Type) : Type :=
  | Ok (a : A)
  | Raise (e : exn).
Arguments Ok {A} a.
Arguments Raise {A} e.

Definition rbind {A B} (k : A → result B) (r : result A) : result B :=
  match r with
  | Ok a => k a
  | Raise e => Raise e
  end.

Global Instance result_bind : MBind result := @rbind.

Definition of_option {A} (e : exn) (o : option A) : result A :=
  match o with
  | Some a => Ok a
  | None => Raise e
  end.

(** [[f(x) for x in l]] where [f] may raise: the first failure aborts. *)
Fixpoint rmap {A B} (f : A → result B) (l : list A) : result (list B) :=
  match l with
  | [] => Ok []
  | x :: l' =>
      y ← f x; ys ← rmap f l'; Ok (y :: ys)
  end.

(** ** Python string primitives *)

Module PyStr.

(** [c.isspace()] for a one-byte character: TAB, LF, VT, FF, CR, FS, GS, RS,
    US and the space. *)
Definition isspace (c : ascii) : bool :=
  let n := nat_of_ascii c in
  ((9 <=? n) && (n <=? 13) || (28 <=? n) && (n <=? 32))%nat.

(** The two-byte characters [str.isspace] holds of, in UTF-8: U+0085 and
    U+00A0. *)
Definition isspace2 (a b : ascii) : bool :=
  let a := nat_of_ascii a in
  let b := nat_of_ascii b in
  ((a =? 194) && ((b =? 133) || (b =? 160)))%nat.

(** The three-byte ones: U+1680, U+2000 to U+200A, U+2028, U+2029, U+202F,
    U+205F and U+3000. *)
Definition isspace3 (a b c : ascii) : bool :=
  let a := nat_of_ascii a in
  let b := nat_of_ascii b in
  let c := nat_of_ascii c in
  ((a =? 225) && (b =? 154) && (c =? 128)
   || (a =? 226) && (b =? 128)
      && ((128 <=? c) && (c <=? 138) || (c =? 168) || (c =? 169) || (c =? 175))
   || (a =? 226) && (b =? 129) && (c =? 159)
   || (a =? 227) && (b =? 128) && (c =? 128))%nat.

(** The number of bytes of the white-space character [s] begins with; [0]
    when it begins with none. *)
Definition space_width (s : string) : nat :=
  match s with
  | String a r =>
      if isspace a then 1
      else match r with
           | String b r' =>
               if isspace2 a b then 2
               else match r' with
                    | String c _ => if isspace3 a b c then 3 else 0
                    | EmptyString => 0
                    end
           | EmptyString => 0
           end
  | EmptyString => 0
  end.

(** [s.lstrip()]; [skip] counts the bytes of the current white-space
    character that are still to be dropped. *)
Fixpoint lstrip_from (skip : nat) (s : string) : string :=
  match s with
  | EmptyString => EmptyString
  | String _ r =>
      match skip with
      | S k => lstrip_from k r
      | O =>
          match space_width s with
          | S k => lstrip_from k r
          | O => s
          end
      end
  end.

Definition lstrip (s : string) : string := lstrip_from 0 s.

(** [s], after its first [skip] bytes, is made of white-space characters
    only. *)
Fixpoint blank_from (skip : nat) (s : string) : bool :=
  match s with
  | EmptyString => match skip with O => true | S _ => false end
  | String _ r =>
      match skip with
      | S k => blank_from k r
      | O =>
          match space_width s with
          | S k => blank_from k r
          | O => false
          end
      end
  end.

(** [s.rstrip()]: the text is cut where nothing but white space follows. *)
Fixpoint rstrip (s : string) : string :=
  match s with
  | EmptyString => EmptyString
  | String c r => if blank_from 0 s then EmptyString else String c (rstrip r)
  end.

(** [s.strip()] *)
Definition strip (s : string) : string := rstrip (lstrip s).

Fixpoint startswith (p s : string) : bool :=
  match p, s with
  | EmptyString, _ => true
  | String a p', String b s' => if decide (a = b) then startswith p' s' else false
  | String _ _, EmptyString => false
  end.

(** [p in s]: [p] occurs in [s] as a substring. *)
Fixpoint contains (p s : string) : bool :=
  startswith p s ||
  match s with
  | String _ s' => contains p s'
  | EmptyString => false
  end.

(** [s.split(',')]: never empty; [''.split(',') == ['']]. *)
Fixpoint split_comma (s : string) : list string :=
  match s with
  | EmptyString => [EmptyString]
  | String c r =>
      if decide (c = ","%char) then EmptyString :: split_comma r
      else match split_comma r with
           | h :: t => String c h :: t
           | [] => [String c EmptyString]
           end
  end.

Definition digit (c : ascii) : option Z :=
  let n := nat_of_ascii c in
  if ((48 <=? n) && (n <=? 57))%nat then Some (Z.of_nat n - 48) else None.

(** The digit part of an integer literal: decimal digits, where single
    underscores may separate digits.  [prev] tells whether the previous
    character was a digit. *)
Fixpoint digits (acc : Z) (prev : bool) (s : string) : option Z :=
  match s with
  | EmptyString => if prev then Some acc else None
  | String c r =>
      if decide (c = "_"%char) then
        if prev then digits acc false r else None
      else
        match digit c with
        | Some d => digits (acc * 10 + d) true r
        | None => None
        end
  end.

(** White space of the C locale, which [int] skips around an ASCII
    literal: TAB, LF, VT, FF, CR and the space. *)
Definition c_isspace (c : ascii) : bool :=
  let n := nat_of_ascii c in
  ((9 <=? n) && (n <=? 13) || (n =? 32))%nat.

Fixpoint c_lstrip (s : string) : string :=
  match s with
  | String c r => if c_isspace c then c_lstrip r else s
  | EmptyString => EmptyString
  end.

Fixpoint c_rstrip (s : string) : string :=
  match s with
  | String c r =>
      match c_rstrip r with
      | EmptyString => if c_isspace c then EmptyString else String c EmptyString
      | r' => String c r'
      end
  | EmptyString => EmptyString
  end.

(** [int(s)] for ASCII text: the white space of the C locale around the
    literal is skipped, then come an optional sign and a decimal literal;
    [None] is [ValueError].  Text with other characters gets [None]. *)
Definition int (s : string) : option Z :=
  match c_rstrip (c_lstrip s) with
  | String "+" r => digits 0 false r
  | String "-" r => Z.opp <$> digits 0 false r
  | t => digits 0 false t
  end.

(** The length of the match of [.*\]] at the start of [s], if any: [.]
    does not match a line feed and [*] is greedy, so the match ends at the
    last closing bracket of the current line. *)
Fixpoint bracket_tail (s : string) : option nat :=
  match s with
  | EmptyString => None
  | String c r =>
      if decide (c = "010"%char) then None
      else match bracket_tail r with
           | Some n => Some (S n)
           | None => if decide (c = "]"%char) then Some 1%nat else None
           end
  end.

(** [re.sub(r'\[.*\]', '', s)], scanning left to right; [skip] counts the
    characters of the current match that are still to be dropped. *)
Fixpoint sub_brackets_from (skip : nat) (s : string) : string :=
  match s with
  | EmptyString => EmptyString
  | String c r =>
      match skip with
      | S k => sub_brackets_from k r
      | O =>
          if decide (c = "["%char) then
            match bracket_tail r with
            | Some n => sub_brackets_from n r
            | None => String c (sub_brackets_from 0 r)
            end
          else String c (sub_brackets_from 0 r)
      end
  end.

Definition sub_brackets (s : string) : string := sub_brackets_from 0 s.

End PyStr.

(** [int(s)] for text [s]; [None] is [ValueError], the only exception [int]
    raises on text. *)
Class PyInt := py_int : string → option Z.

(** ** Tables *)

(** A cell of a count column: an integer, text, or NaN.  An integer cell
    sits in an int64 column, in a uint64 column when it is [2^63] or more,
    and is a Python int of an object column when it does not fit 64 bits.
    (Floating-point counts other than NaN, and a column that mixes negative
    integers with integers of [2^63] or more, are left out.) *)
Inductive cell : Type :=
  | IntCell (z : Z)
  | TextCell (s : string)
  | NaNCell.

(** A cell of a year-list column: text, NaN, or a number (as in a column
    that holds one year per row, which pandas reads as numbers). *)
Inductive year_cell : Type :=
  | Text (s : string)
  | NaN
  | Number.

Global Instance year_cell_eq_dec : EqDecision year_cell.
Proof. solve_decision. Defined.

(** The dtype of the [Team] column.  A column with text in it (or without
    any row) is an object column; a column whose cells are all numbers or
    NaN is a numeric column, and its cells are [None] here. *)
Inductive dtype : Type :=
  | object
  | numeric.

(** A row of a parsed table, by column position (the six columns line 15
    names).  A cell of the [Team] column is text or NaN ([None]). *)
Record raw_row : Type := RawRow {
  raw_Team : option string;
  raw_Wins : cell;
  raw_Runners_up : cell;
  raw_Total_finals : cell;
  raw_Years_won : year_cell;
  raw_Years_runners_up : year_cell
}.

(** One element of [tables]: its column labels, the dtype of its first
    column and its rows. *)
Record table : Type := Table {
  columns : list string;
  Team_dtype : dtype;
  body : list raw_row
}.

(** [wcWinnerData] after lines 15-27. *)
Record team_record : Type := TeamRecord {
  Team : option string;
  Wins : Z;
  Runners_up : Z;
  Total_finals : Z;
  Years_won : year_cell;
  Years_runners_up : year_cell
}.

(** A global variable is unbound ([None]) until it is assigned; reading an
    unbound global raises [NameError]. *)
Definition read_global {A} (g : option A) : result A := of_option NameError g.

(** ** Table Selector (lines 10-15) *)

Section TableSelector.

(** [str(table.columns)]: the rendering pandas gives an index. *)
Variable str_columns : list string → string.

(** The test of line 11. *)
Definition is_match (t : table) : bool :=
  PyStr.contains "Team" (str_columns (columns t))
  && PyStr.contains "Winners" (str_columns (columns t)).

(** The loop of lines 10-13 started with [wcWinnerData] unbound: the value
    of the global when the loop ends. *)
Fixpoint select_loop (tables : list table) : option table :=
  match tables with
  | [] => None
  | t :: rest => if is_match t then Some t else select_loop rest
  end.

(** The loop followed by the first read of [wcWinnerData] (line 15). *)
Definition table_selector (tables : list table) : result table :=
  read_global (select_loop tables).

End TableSelector.

(** One such rendering, for a short flat index of text labels:
    [Index(['a', 'b'], dtype='object')]. *)
Definition quote_label (s : string) : string := "'" +:+ s +:+ "'".

Fixpoint join_labels (l : list string) : string :=
  match l with
  | [] => ""
  | [s] => quote_label s
  | s :: rest => quote_label s +:+ ", " +:+ join_labels rest
  end.

Definition index_repr (l : list string) : string :=
  "Index([" +:+ join_labels l +:+ "], dtype='object')".

(** ** Team Normalizer (lines 15-27) *)

(** Line 15: six labels are assigned; pandas raises [ValueError] when the
    table does not have six columns. *)
Definition set_columns (t : table) : result (list raw_row) :=
  if decide (length (columns t) = 6%nat) then Ok (body t) else Raise ValueError.

(** Line 16: [dropna(subset=['Team'])]. *)
Definition dropna_Team (rows : list raw_row) : list raw_row :=
  filter (λ r, is_Some (raw_Team r)) rows.

(** Line 22: [.replace({'West Germany': 'Germany'})] on whole values. *)
Definition rename (s : string) : string :=
  if decide (s = "West Germany") then "Germany" else s.

(** Lines 18-23 on one text value. *)
Definition clean_name (s : string) : string :=
  rename (PyStr.strip (PyStr.sub_brackets s)).

(** Lines 18-23 on one cell: the string methods leave NaN as it is. *)
Definition clean_Team (c : option string) : option string := clean_name <$> c.

(** Lines 19-21: the [.str] accessor exists for an object column only. *)
Definition str_accessor (d : dtype) : result unit :=
  match d with
  | object => Ok tt
  | numeric => Raise AttributeError
  end.

Definition int64_min : Z := - 2 ^ 63.
Definition int64_max : Z := 2 ^ 63 - 1.
Definition uint64_max : Z := 2 ^ 64 - 1.

(** [astype(int)] on one cell: the cast to int64.  A cell of an int64
    column is kept, a cell of a uint64 column wraps around, a Python int or a
    literal that does not fit int64 raises [OverflowError]; text that is no
    literal, and NaN, raise [ValueError]. *)
Definition astype_int `{!PyInt} (c : cell) : result Z :=
  match c with
  | IntCell z =>
      if decide (int64_min ≤ z ≤ int64_max) then Ok z
      else if decide (int64_max < z ≤ uint64_max) then Ok (z - 2 ^ 64)
      else Raise OverflowError
  | TextCell s =>
      match py_int s with
      | Some z =>
          if decide (int64_min ≤ z ≤ int64_max) then Ok z
          else Raise OverflowError
      | None => Raise ValueError
      end
  | NaNCell => Raise ValueError
  end.

(** The value of the integer [z] of a 64-bit column once it is read as an
    int64: an integer of [2^63] or more wraps around. *)
Definition cast_int64 (z : Z) : Z :=
  if decide (z ≤ int64_max) then z else z - 2 ^ 64.

(** The integer a count cell holds, if it holds one. *)
Definition cell_value `{!PyInt} (c : cell) : option Z :=
  match c with
  | IntCell z => Some z
  | TextCell s => py_int s
  | NaNCell => None
  end.

Definition make_record (r : raw_row) (counts : Z * (Z * Z)) : team_record :=
  {| Team := clean_Team (raw_Team r);
     Wins := counts.1;
     Runners_up := counts.2.1;
     Total_finals := counts.2.2;
     Years_won := raw_Years_won r;
     Years_runners_up := raw_Years_runners_up r |}.

(** Lines 16-27.  The three casts run column by column, in this order. *)
Definition normalize_rows `{!PyInt} (d : dtype) (rows : list raw_row)
  : result (list team_record) :=
  let kept := dropna_Team rows in
  str_accessor d;;
  wins ← rmap astype_int (raw_Wins <$> kept);
  rups ← rmap astype_int (raw_Runners_up <$> kept);
  tots ← rmap astype_int (raw_Total_finals <$> kept);
  Ok (zip_with make_record kept (zip wins (zip rups tots))).

(** Lines 15-27 on the selected table. *)
Definition team_normalizer `{!PyInt} (t : table) : result (list team_record) :=
  rows ← set_columns t; normalize_rows (Team_dtype t) rows.

(** ** Finals Expander (lines 29-44) *)

(** The no-data marker of the source table: an em-dash (U+2014). *)
Definition em_dash : string := "—".

(** One element of [matches]: a dict with the keys [Year] and [Winner], or
    with the keys [Year] and [Runner-up].  The team is [row['Team']]. *)
Inductive entry : Type :=
  | WinnerEntry (year : Z) (team : option string)
  | RunnerEntry (year : Z) (team : option string).

Definition entry_keys (m : entry) : list string :=
  match m with
  | WinnerEntry _ _ => ["Year"; "Winner"]
  | RunnerEntry _ _ => ["Year"; "Runner-up"]
  end.

(** A row of [matches_df]; a key the dict does not have gives NaN. *)
Record df_row : Type := DfRow {
  df_Year : Z;
  df_Winner : option string;
  df_Runner_up : option string
}.

Record frame : Type := Frame {
  df_columns : list string;
  df_rows : list df_row
}.

Definition entry_row (m : entry) : df_row :=
  match m with
  | WinnerEntry y t => DfRow y t None
  | RunnerEntry y t => DfRow y None t
  end.

(** [pd.DataFrame(matches)]: the columns are the keys of the dicts, in the
    order of their first appearance; no dict, no column. *)
Definition add_keys (cols : list string) (m : entry) : list string :=
  cols ++ filter (λ k, k ∉ cols) (entry_keys m).

Definition DataFrame (ms : list entry) : frame :=
  {| df_columns := foldl add_keys [] ms; df_rows := entry_row <$> ms |}.

(** [df[c]] and [df[[c1, c2]]] raise [KeyError] for a column that is not
    there. *)
Definition require_columns (df : frame) (cs : list string) : result unit :=
  if decide (Forall (λ c, c ∈ df_columns df) cs) then Ok tt else Raise KeyError.

(** Line 42: the rows whose [Winner] is not NaN, columns [Year], [Winner]. *)
Definition select_winners (df : frame) : result (list (Z * string)) :=
  require_columns df ["Winner"];;
  require_columns df ["Year"; "Winner"];;
  Ok (omap (λ r, pair (df_Year r) <$> df_Winner r) (df_rows df)).

(** Line 43: the rows whose [Runner-up] is not NaN. *)
Definition select_runners (df : frame) : result (list (Z * string)) :=
  require_columns df ["Runner-up"];;
  require_columns df ["Year"; "Runner-up"];;
  Ok (omap (λ r, pair (df_Year r) <$> df_Runner_up r) (df_rows df)).

(** A row of [finals_df]. *)
Record final_row : Type := FinalRow {
  Year : Z;
  Winner : string;
  Runner_up : option string
}.

Global Instance final_row_eq_dec : EqDecision final_row.
Proof. solve_decision. Defined.

(** The rows a left row contributes to the left join: one per right row
    with the same year, in the order of the right rows; a single row with
    NaN when there is none. *)
Definition join_row (rs : list (Z * string)) (w : Z * string) : list final_row :=
  match filter (λ r, r.1 = w.1) rs with
  | [] => [FinalRow w.1 w.2 None]
  | hits => (λ r, FinalRow w.1 w.2 (Some r.2)) <$> hits
  end.

(** [ws.merge(rs, on='Year', how='left')]: the order of the left rows is
    kept. *)
Definition merge_left (ws rs : list (Z * string)) : list final_row :=
  ws ≫= join_row rs.

(** [drop_duplicates()]: of equal rows the first one is kept. *)
Fixpoint drop_duplicates {A} `{EqDecision A} (l : list A) : list A :=
  match l with
  | [] => []
  | x :: l' => x :: filter (λ y, y ≠ x) (drop_duplicates l')
  end.

(** [[int(y.strip()) for y in s.split(',')]] *)
Definition parse_years `{!PyInt} (s : string) : result (list Z) :=
  rmap (λ y, of_option ValueError (py_int (PyStr.strip y))) (PyStr.split_comma s).

(** The globals the expander assigns; [None] is an unbound name. *)
Record env : Type := Env {
  matches : option (list entry);
  matches_df : option frame;
  winners : option (list (Z * string));
  runners : option (list (Z * string));
  finals_df : option (list final_row)
}.

Definition unbound : env := Env None None None None None.

Definition set_matches (v : list entry) (e : env) : env :=
  Env (Some v) (matches_df e) (winners e) (runners e) (finals_df e).
Definition set_matches_df (v : frame) (e : env) : env :=
  Env (matches e) (Some v) (winners e) (runners e) (finals_df e).
Definition set_winners (v : list (Z * string)) (e : env) : env :=
  Env (matches e) (matches_df e) (Some v) (runners e) (finals_df e).
Definition set_runners (v : list (Z * string)) (e : env) : env :=
  Env (matches e) (matches_df e) (winners e) (Some v) (finals_df e).
Definition set_finals_df (v : list final_row) (e : env) : env :=
  Env (matches e) (matches_df e) (winners e) (runners e) (Some v).

(** Statements: they read and assign globals and may raise; what was
    assigned before an exception stays assigned. *)
Definition stmt (A : Type) : Type := env → env * result A.

Definition ret {A} (a : A) : stmt A := λ e, (e, Ok a).

Definition bind {A B} (k : A → stmt B) (c : stmt A) : stmt B :=
  λ e, match c e with
       | (e', Ok a) => k a e'
       | (e', Raise x) => (e', Raise x)
       end.

Global Instance stmt_bind : MBind stmt := @bind.
Global Instance stmt_ret : MRet stmt := @ret.

Definition lift {A} (r : result A) : stmt A := λ e, (e, r).
Definition read {A} (var : env → option A) : stmt A := λ e, (e, read_global (var e)).
Definition assign (upd : env → env) : stmt unit := λ e, (upd e, Ok tt).

(** [for x in l: body] *)
Fixpoint for_each {A} (l : list A) (body : A → stmt unit) : stmt unit :=
  match l with
  | [] => ret tt
  | x :: l' => body x ;; for_each l' body
  end.

(** [matches.append(m)] *)
Definition append (m : entry) : stmt unit :=
  ms ← read matches; assign (set_matches (ms ++ [m])).

(** Lines 31-34 and 36-39, for the cell [c] and the dict shape [mk].  A
    number passes both tests of the [if] and has no [split]. *)
Definition expand_cell `{!PyInt} (c : year_cell) (mk : Z → entry) : stmt unit :=
  match c with
  | Text s =>
      if decide (s ≠ em_dash) then
        years ← lift (parse_years s);
        for_each years (λ year, append (mk year))
      else ret tt
  | NaN => ret tt
  | Number => lift (Raise AttributeError)
  end.

(** The body of the loop of line 30. *)
Definition expand_row `{!PyInt} (row : team_record) : stmt unit :=
  expand_cell (Years_won row) (λ year, WinnerEntry year (Team row));;
  expand_cell (Years_runners_up row) (λ year, RunnerEntry year (Team row)).

(** Lines 29-44. *)
Definition finals_expander `{!PyInt} (wcWinnerData : list team_record)
  : stmt unit :=
  assign (set_matches []);;
  for_each wcWinnerData expand_row;;
  ms ← read matches;
  assign (set_matches_df (DataFrame ms));;
  df ← read matches_df;
  ws ← lift (select_winners df);
  assign (set_winners ws);;
  df ← read matches_df;
  rs ← lift (select_runners df);
  assign (set_runners rs);;
  ws ← read winners;
  rs ← read runners;
  assign (set_finals_df (drop_duplicates (merge_left ws rs))).

(** The table [finals_df] a run of the expander leaves, started from [e]. *)
Definition finals_from `{!PyInt} (e : env) (wcWinnerData : list team_record)
  : result (list final_row) :=
  match finals_expander wcWinnerData e with
  | (e', Ok _) => read_global (finals_df e')
  | (_, Raise x) => Raise x
  end.

(** The expander at start-up, when none of its globals is bound yet. *)
Definition expand_finals `{!PyInt}
  : list team_record → result (list final_row) :=
  finals_from unbound.

(** ** Country Code Mapper (lines 48-57) *)

(** The dict literal of lines 48-53, in source order. *)
Definition iso_codes_literal : list (string * string) :=
  [ ("Brazil", "BRA"); ("Germany", "DEU"); ("Italy", "ITA");
    ("Argentina", "ARG"); ("France", "FRA"); ("Uruguay", "URY");
    ("England", "GBR"); ("Spain", "ESP"); ("Netherlands", "NLD");
    ("Hungary", "HUN"); ("Czechoslovakia", "CZE"); ("Sweden", "SWE");
    ("Croatia", "HRV") ].

(** A dict display inserts its items from left to right. *)
Definition iso_codes : gmap string string :=
  foldl (λ d kv, <[kv.1 := kv.2]> d) ∅ iso_codes_literal.

(** [wcWinnerData] once the [Code] column is there. *)
Record coded_record : Type := Coded {
  record : team_record;
  Code : option string
}.

(** [Series.map(iso_codes)] on one cell: a key the dict lacks, or NaN,
    gives NaN. *)
Definition map_code (team : option string) : option string :=
  team ≫= (iso_codes !!.).

(** Line 55: every row of [wcWinnerData] gets its [Code]. *)
Definition add_codes (wcWinnerData : list team_record) : list coded_record :=
  (λ r, Coded r (map_code (Team r))) <$> wcWinnerData.

(** Line 57: [winners = wcWinnerData[wcWinnerData['Wins'] > 0]]. *)
Definition winnersWithCodes (wcWinnerData : list team_record) : list coded_record :=
  filter (λ c, 0 < Wins (record c)) (add_codes wcWinnerData).

(** ** Per-year lookup (lines 246-252) *)

Inductive html : Type :=
  | H3 (text : string)
  | P (text : string) (color : string).

(** An f-string field for a cell of the [Runner-up] column. *)
Definition format_cell (c : option string) : string := from_option id "nan" c.

(** [update_result(selected_year)], with the global [finals_df] as an
    argument.  [.iloc[0]] raises [IndexError] on an empty selection. *)
Definition update_result (finals_df : list final_row) (selected_year : Z)
  : result (list html) :=
  match filter (λ r, Year r = selected_year) finals_df with
  | [] => Raise IndexError
  | result :: _ =>
      Ok [ H3 (pretty selected_year +:+ " World Cup Final");
           P ("Winner: " +:+ Winner result) "gold";
           P ("Runner-up: " +:+ format_cell (Runner_up result)) "silver" ]
  end.

(** ** Pure views of the expander, for the proofs *)

(** The years a year-list cell contributes (lines 31-32 / 36-37): none for
    NaN and for the no-data marker. *)
Definition cell_years `{!PyInt} (c : year_cell) : result (list Z) :=
  match c with
  | Text s => if decide (s ≠ em_dash) then parse_years s else Ok []
  | NaN => Ok []
  | Number => Raise AttributeError
  end.

(** The list [matches] after the loop of line 30 has run over [rows],
    started with [ms], and how the loop ended. *)
Fixpoint collect `{!PyInt} (rows : list team_record) (ms : list entry)
  : list entry * result unit :=
  match rows with
  | [] => (ms, Ok tt)
  | row :: rest =>
      match cell_years (Years_won row) with
      | Raise x => (ms, Raise x)
      | Ok ws =>
          let ms1 := ms ++ ((λ y, WinnerEntry y (Team row)) <$> ws) in
          match cell_years (Years_runners_up row) with
          | Raise x => (ms1, Raise x)
          | Ok rs => collect rest (ms1 ++ ((λ y, RunnerEntry y (Team row)) <$> rs))
          end
      end
  end.

(** Lines 41-44 once [matches] holds [ms]. *)
Definition build_finals (ms : list entry) (e : env) : env * result unit :=
  let df := DataFrame ms in
  let e1 := set_matches_df df (set_matches ms e) in
  match select_winners df with
  | Raise x => (e1, Raise x)
  | Ok ws =>
      let e2 := set_winners ws e1 in
      match select_runners df with
      | Raise x => (e2, Raise x)
      | Ok rs =>
          (set_finals_df (drop_duplicates (merge_left ws rs)) (set_runners rs e2),
           Ok tt)
      end
  end.

Definition is_runner_entry (m : entry) : bool :=
  match m with RunnerEntry _ _ => true | WinnerEntry _ _ => false end.

Definition is_winner_entry (m : entry) : bool :=
  match m with WinnerEntry _ _ => true | RunnerEntry _ _ => false end.

(** Year [y] is listed in the [Years_won] cell of a record of team [t]. *)
Definition won_by `{!PyInt} (wc : list team_record) (y : Z) (t : string)
  : Prop :=
  ∃ row ys, row ∈ wc ∧ Team row = Some t
            ∧ cell_years (Years_won row) = Ok ys ∧ y ∈ ys.

(** Year [y] is listed in the [Years_runners_up] cell of a record of team
    [t]. *)
Definition runner_up_by `{!PyInt} (wc : list team_record) (y : Z) (t : string)
  : Prop :=
  ∃ row ys, row ∈ wc ∧ Team row = Some t
            ∧ cell_years (Years_runners_up row) = Ok ys ∧ y ∈ ys.

(** ** Start-up (lines 8-44) *)

(** The script from the parsed tables to [wcWinnerData] and [finals_df]; at
    start-up no global of the expander is bound. *)
Definition startup `{!PyInt} (str_columns : list string → string)
    (tables : list table)
  : result (list team_record * list final_row) :=
  t ← table_selector str_columns tables;
  wcWinnerData ← team_normalizer t;
  finals ← expand_finals wcWinnerData;
  Ok (wcWinnerData, finals).

(** A year-list cell that contributes nothing: NaN or the no-data marker. *)
Definition no_data (c : year_cell) : Prop := c = NaN ∨ c = Text em_dash.

Global Instance no_data_dec c : Decision (no_data c).
Proof. unfold no_data. apply _. Defined.

(** A year-list cell the comprehension of line 32 / 37 raises on. *)
Definition malformed `{!PyInt} (c : year_cell) : Prop :=
  ∃ s, c = Text s ∧ s ≠ em_dash ∧ parse_years s = Raise ValueError.

(** What the loop of line 30 raises on a year-list cell: [ValueError] for
    a list with an item [int] does not read, [AttributeError] for a
    number. *)
Definition year_cell_raises `{!PyInt} (c : year_cell) (e : exn) : Prop :=
  (e = ValueError ∧ malformed c) ∨ (e = AttributeError ∧ c = Number).

(** A year-list cell the loop gets through. *)
Definition readable `{!PyInt} (c : year_cell) : Prop :=
  ¬ malformed c ∧ c ≠ Number.

(** ** Presentation data (lines 108-111, 173-174, 197-198, 215-240) *)

(** Lines 108-111.  [sort_values('Wins', ascending=False)] uses an unstable
    sort: which sorted arrangement it returns is left open here. *)
Section WinningCountries.

Variable sort_values_Wins_desc : list coded_record → list coded_record.

(** The text of one [html.Li]. *)
Definition winning_country_item (c : coded_record) : string :=
  format_cell (Team (record c)) +:+ " - " +:+ pretty (Wins (record c)) +:+ " wins".

Definition winning_countries_list (wcWinnerData : list team_record) : list string :=
  winning_country_item <$> sort_values_Wins_desc (winnersWithCodes wcWinnerData).

End WinningCountries.

(** The order of the sorted frame: no row has more [Wins] than a row before
    it. *)
Definition Wins_ge (a b : coded_record) : Prop := Wins (record b) ≤ Wins (record a).

Global Instance Wins_ge_dec a b : Decision (Wins_ge a b).
Proof. unfold Wins_ge. apply _. Defined.

(** One sorted arrangement: a merge sort on [Wins], largest first. *)
Definition merge_sort_Wins_desc : list coded_record → list coded_record :=
  merge_sort Wins_ge.

(** An entry of [options] of a [dcc.Dropdown]. *)
Record dropdown_option (L V : Type) : Type := DropdownOption {
  label : L;
  value : V
}.
Arguments DropdownOption {L V} label value.
Arguments label {L V} d.
Arguments value {L V} d.

(** Line 173: one option per row of [wcWinnerData], the team as label and as
    value. *)
Definition country_options (wcWinnerData : list team_record)
  : list (dropdown_option (option string) (option string)) :=
  (λ r, DropdownOption (Team r) (Team r)) <$> wcWinnerData.

(** Line 174. *)
Definition country_initial : option string := Some "Brazil".

(** [finals_df['Year'].unique()]: the values in the order of their first
    appearance. *)
Definition unique_years (finals_df : list final_row) : list Z :=
  drop_duplicates (Year <$> finals_df).

(** [sorted(l, reverse=True)] on integers: the descending arrangement. *)
Definition sorted_reverse (l : list Z) : list Z := merge_sort (flip Z.le) l.

(** Line 197. *)
Definition year_options (finals_df : list final_row)
  : list (dropdown_option string Z) :=
  (λ year, DropdownOption (pretty year) year) <$> sorted_reverse (unique_years finals_df).

(** Line 198: [finals_df['Year'].max()], NaN for an empty column. *)
Definition year_initial (finals_df : list final_row) : option Z :=
  match Year <$> finals_df with
  | [] => None
  | y :: ys => Some (foldl Z.max y ys)
  end.

(** [series == selected]: NaN and [None] are equal to nothing. *)
Definition cell_eqb (c selected : option string) : bool :=
  match c, selected with
  | Some a, Some b => bool_decide (a = b)
  | _, _ => false
  end.

(** An f-string field for the value of a dropdown. *)
Definition format_selected (selected : option string) : string :=
  from_option id "None" selected.

(** What [update_graph] hands to [px.bar] and to [update_layout]: a bar per
    row of [country_data], at [x = Team] with height [Wins], and the two
    titles. *)
Record bar_figure : Type := BarFigure {
  bars : list (option string * Z);
  title : string;
  yaxis_title : string
}.

(** [update_graph(selected_country)] (lines 215-240), with the global
    [wcWinnerData] (which has its [Code] column by then) as an argument. *)
Definition update_graph (wcWinnerData : list coded_record)
    (selected_country : option string) : bar_figure :=
  let country_data :=
    filter (λ c, cell_eqb (Team (record c)) selected_country) wcWinnerData in
  {| bars := (λ c, (Team (record c), Wins (record c))) <$> country_data;
     title := format_selected selected_country +:+ " World Cup History";
     yaxis_title := "Number of times " +:+ format_selected selected_country
                    +:+ " won the World Cup" |}.





(** What [update_result] shows for a row. *)
Definition result_view (y : Z) (r : final_row) : list html :=
  [ H3 (pretty y +:+ " World Cup Final");
    P ("Winner: " +:+ Winner r) "gold";
    P ("Runner-up: " +:+ format_cell (Runner_up r)) "silver" ].

(** The (year, team) pairs the records list as won, record by record and,
    within a record, in the order of its [Years_won] cell; records without a
    team name contribute none. *)
Definition listed_wins `{!PyInt} (wc : list team_record) : list (Z * string) :=
  wc ≫= λ row,
    match Team row, cell_years (Years_won row) with
    | Some t, Ok ys => (λ y, (y, t)) <$> ys
    | _, _ => []
    end.

(** The count [v] is the int64 cast of the integer the cell [c] holds; it
    is non-negative exactly when that integer lies in [[0, 2^63)]. *)
Definition holds_count `{!PyInt} (c : cell) (v : Z) : Prop :=
  ∃ z, cell_value c = Some z ∧ v = cast_int64 z
       ∧ (0 ≤ v ↔ 0 ≤ z ≤ int64_max).

(** [PyStr.int] as the reading of literals, for the examples. *)
Global Instance ascii_int : PyInt := PyStr.int.

(** ** Sample data *)

Definition uruguay : team_record :=
  TeamRecord (Some "Uruguay") 2 0 2 (Text "1930, 1950") (Text em_dash).
Definition argentina : team_record :=
  TeamRecord (Some "Argentina") 3 3 6 (Text "1978, 1986, 2022")
             (Text "1930, 1990, 2014").
Definition brazil : team_record :=
  TeamRecord (Some "Brazil") 5 2 7 (Text "1958, 1962, 1970, 1994, 2002")
             (Text "1950, 1998").
Definition netherlands : team_record :=
  TeamRecord (Some "Netherlands") 0 3 3 (Text em_dash) (Text "1974, 1978, 2010").

(** Two records claim the final of 1930. *)
Definition two_winners : list team_record :=
  [ TeamRecord (Some "Uruguay") 1 0 1 (Text "1930") NaN;
    TeamRecord (Some "Italy") 1 0 1 (Text "1930") NaN;
    TeamRecord (Some "Argentina") 0 1 1 NaN (Text "1930") ].

(** A table in which no record lists a runner-up year. *)
Definition only_winner : list team_record :=
  [ TeamRecord (Some "Brazil") 1 0 1 (Text "1958") (Text em_dash) ].

(** A parsed table as line 8 may deliver it, and what the normalizer makes
    of it. *)
Definition sample_table : table :=
  Table [ "Team"; "Winners"; "Runners-up"; "Total finals";
          "Years won"; "Years runners-up" ] object
        [ RawRow (Some "Brazil[a]") (IntCell 5) (TextCell "2") (IntCell 7)
                 (Text "1958, 1962, 1970, 1994, 2002") (Text "1950, 1998");
          RawRow None NaNCell NaNCell NaNCell NaN NaN;
          RawRow (Some "West Germany") (TextCell " 3") (IntCell 3)
                 (TextCell "6") (Text "1954, 1974, 1990")
                 (Text "1966, 1982, 1986");
          RawRow (Some " Croatia ") (IntCell 0) (IntCell 1) (IntCell 1)
                 (Text em_dash) (Text "2018") ].

Definition sample_records : list team_record :=
  [ TeamRecord (Some "Brazil") 5 2 7
               (Text "1958, 1962, 1970, 1994, 2002") (Text "1950, 1998");
    TeamRecord (Some "Germany") 3 3 6 (Text "1954, 1974, 1990")
               (Text "1966, 1982, 1986");
    TeamRecord (Some "Croatia") 0 1 1 (Text em_dash) (Text "2018") ].

(** * Properties *)

(** ** Results and lists *)

Section ResultsListsFacts.

Context {python_int : PyInt}.

Lemma rmap_Forall2 {A B} (f : A → result B) l ys :
  rmap f l = Ok ys → Forall2 (λ x y, f x = Ok y) l ys.
Proof.
  revert ys. induction l as [|x l IH]; intros ys; simpl.
  - intros [= <-]. constructor.
  - unfold mbind, result_bind. destruct (f x) as [y|] eqn:Hx; simpl; [|done].
    destruct (rmap f l) as [zs|]; simpl; [|done].
    intros [= <-]. constructor; auto.
Qed.

Lemma elem_of_drop_duplicates {A} `{EqDecision A} (l : list A) x :
  x ∈ drop_duplicates l ↔ x ∈ l.
Proof.
  induction l as [|a l IH]; simpl; [done|].
  rewrite !elem_of_cons, list_elem_of_filter, IH.
  destruct (decide (x = a)); intuition congruence.
Qed.

Lemma NoDup_drop_duplicates {A} `{EqDecision A} (l : list A) :
  NoDup (drop_duplicates l).
Proof.
  induction l as [|a l IH]; simpl; constructor.
  - rewrite list_elem_of_filter. intros [Hne _]. by apply Hne.
  - by apply NoDup_filter.
Qed.

End ResultsListsFacts.

(** ** String primitives *)

Section StringPrimitivesFacts.

Context {python_int : PyInt}.

Lemma startswith_spec p s :
  PyStr.startswith p s = true ↔ ∃ rest, s = p +:+ rest.
Proof.
  revert s. induction p as [|a p IH]; intros s; simpl.
  - split; [|done]. intros _. by exists s.
  - destruct s as [|b s].
    + split; [done|]. by intros (rest & ?).
    + destruct (decide (a = b)) as [->|Hne].
      * rewrite IH. split; intros (rest & Hs); exists rest.
        -- by rewrite Hs.
        -- by injection Hs.
      * split; [done|]. intros (rest & Hs). by injection Hs as -> _.
Qed.

(** [p in s] holds exactly when [s] is some text, then [p], then some
    text. *)
Lemma contains_spec p s :
  PyStr.contains p s = true ↔ ∃ before after, s = before +:+ p +:+ after.
Proof.
  induction s as [|c s IH]; simpl; rewrite orb_true_iff, startswith_spec.
  - split.
    + intros [(rest & Hs)|?]; [|done]. by exists "", rest.
    + intros ([|??] & after & Hs); [left; by exists after|done].
  - rewrite IH. split.
    + intros [(rest & Hs)|(before & after & ->)].
      * by exists "", rest.
      * by exists (String c before), after.
    + intros ([|c' before] & after & Hs).
      * left. by exists after.
      * right. injection Hs as -> ->. by exists before, after.
Qed.

End StringPrimitivesFacts.

Example em_dash_bytes :
  em_dash = String "226" (String "128" (String "148" EmptyString)).
Proof. reflexivity. Qed.

Example strip_ex :
  PyStr.strip "  West Germany " = "West Germany" ∧ PyStr.strip " " = ""
  ∧ PyStr.strip (String "194" (String "160" (String "028" "1930 a" +:+ String "226" (String "128" (String "138" (String "010" ""))))))
    = "1930 a"
  ∧ PyStr.strip (String "226" (String "128" (String "148" ""))) = String "226" (String "128" (String "148" "")).
Proof. repeat split. Qed.

Example split_ex :
  PyStr.split_comma "1958, 1962,1970" = ["1958"; " 1962"; "1970"]
  ∧ PyStr.split_comma "" = [""].
Proof. by split. Qed.

Example int_ex :
  PyStr.int " 1962" = Some 1962 ∧ PyStr.int "19x" = None
  ∧ PyStr.int "-3" = Some (-3) ∧ PyStr.int "" = None
  ∧ PyStr.int "1_000" = Some 1000 ∧ PyStr.int "1__0" = None
  ∧ PyStr.int (String "028" "1930") = None
  ∧ PyStr.int (PyStr.strip (String "028" "1930")) = Some 1930.
Proof. by repeat split. Qed.

Example sub_brackets_ex :
  PyStr.sub_brackets "Brazil[a] x [b]] y" = "Brazil y"
  ∧ PyStr.sub_brackets "a[b" = "a[b"
  ∧ PyStr.sub_brackets "a]b[c" = "a]b[c".
Proof. by repeat split. Qed.

Example clean_name_ex :
  clean_name " West Germany[b] " = "Germany" ∧ clean_name " [a] " = ""
  ∧ clean_name "East Germany" = "East Germany".
Proof. by repeat split. Qed.

(** ** The expander, statement by statement *)

Section ExpanderStatementStatementFacts.

Context {python_int : PyInt}.

Lemma set_matches_id e ms : matches e = Some ms → set_matches ms e = e.
Proof. destruct e; simpl; by intros ->. Qed.

Lemma bind_unfold {A B} (c : stmt A) (k : A → stmt B) e :
  (c ≫= k) e = match c e with
               | (e', Ok a) => k a e'
               | (e', Raise x) => (e', Raise x)
               end.
Proof. reflexivity. Qed.

Lemma append_all_spec (mk : Z → entry) ys e ms :
  matches e = Some ms →
  for_each ys (λ year, append (mk year)) e
  = (set_matches (ms ++ (mk <$> ys)) e, Ok tt).
Proof.
  revert e ms. induction ys as [|y ys IH]; intros e ms Hms; simpl.
  - rewrite app_nil_r, set_matches_id by done. reflexivity.
  - rewrite bind_unfold. unfold append at 1. rewrite bind_unfold.
    unfold read, assign. rewrite Hms. simpl.
    rewrite (IH _ (ms ++ [mk y])) by reflexivity.
    rewrite <- app_assoc. destruct e; reflexivity.
Qed.

Lemma expand_cell_spec c mk e ms :
  matches e = Some ms →
  expand_cell c mk e
  = match cell_years c with
    | Ok ys => (set_matches (ms ++ (mk <$> ys)) e, Ok tt)
    | Raise x => (e, Raise x)
    end.
Proof.
  intros Hms. unfold expand_cell, cell_years.
  destruct c as [s| |]; [destruct (decide (s ≠ em_dash))| |].
  - rewrite bind_unfold. unfold lift.
    destruct (parse_years s) as [ys|x]; [|done].
    by apply append_all_spec.
  - simpl. rewrite app_nil_r, set_matches_id by done. reflexivity.
  - simpl. rewrite app_nil_r, set_matches_id by done. reflexivity.
  - reflexivity.
Qed.

Lemma loop_spec rows e ms :
  matches e = Some ms →
  for_each rows expand_row e
  = (set_matches (collect rows ms).1 e, (collect rows ms).2).
Proof.
  revert e ms. induction rows as [|row rows IH]; intros e ms Hms; simpl.
  - rewrite set_matches_id by done. reflexivity.
  - rewrite bind_unfold. unfold expand_row. rewrite bind_unfold.
    rewrite (expand_cell_spec _ _ _ ms) by done.
    destruct (cell_years (Years_won row)) as [ws|x]; simpl;
      [|by rewrite set_matches_id].
    rewrite (expand_cell_spec _ _ _ (ms ++ ((λ y, WinnerEntry y (Team row)) <$> ws)))
      by (by destruct e).
    destruct (cell_years (Years_runners_up row)) as [rs|x]; simpl.
    + erewrite IH by (by destruct e). by destruct e.
    + by destruct e.
Qed.

Lemma finals_expander_spec wc e :
  finals_expander wc e
  = match collect wc [] with
    | (ms, Ok _) => build_finals ms e
    | (ms, Raise x) => (set_matches ms e, Raise x)
    end.
Proof.
  unfold finals_expander. rewrite bind_unfold. unfold assign at 1.
  rewrite bind_unfold, (loop_spec _ _ []) by (by destruct e).
  destruct (collect wc []) as [ms [[]|x]]; simpl; [|by destruct e].
  unfold build_finals. rewrite !bind_unfold. unfold read at 1. simpl.
  rewrite !bind_unfold. unfold assign at 1. rewrite !bind_unfold.
  unfold read at 1. simpl. rewrite !bind_unfold. unfold lift at 1.
  destruct (select_winners (DataFrame ms)) as [ws|x]; [|by destruct e].
  rewrite !bind_unfold. unfold assign at 1. rewrite !bind_unfold.
  unfold read at 1. simpl. rewrite !bind_unfold. unfold lift at 1.
  destruct (select_runners (DataFrame ms)) as [rs|x]; [|by destruct e].
  by destruct e.
Qed.

End ExpanderStatementStatementFacts.

(** ** What the loop collects *)

Section LoopCollectsFacts.

Context {python_int : PyInt}.

Lemma collect_ok rows ms ms' :
  collect rows ms = (ms', Ok tt) →
  ∀ m, m ∈ ms' ↔
    m ∈ ms ∨ ∃ row, row ∈ rows ∧
      ((∃ ys y, cell_years (Years_won row) = Ok ys ∧ y ∈ ys
                ∧ m = WinnerEntry y (Team row))
       ∨ (∃ ys y, cell_years (Years_runners_up row) = Ok ys ∧ y ∈ ys
                  ∧ m = RunnerEntry y (Team row))).
Proof.
  revert ms. induction rows as [|row rows IH]; intros ms; simpl.
  - intros [= <-] m. split; [auto|]. intros [?|(row & Hin & _)]; [done|].
    by apply elem_of_nil in Hin.
  - destruct (cell_years (Years_won row)) as [ws|] eqn:Hw; [|done].
    destruct (cell_years (Years_runners_up row)) as [rs|] eqn:Hr; [|done].
    intros Hc m. rewrite (IH _ Hc), !elem_of_app, !list_elem_of_fmap.
    split.
    + intros [[[?|(y & -> & Hy)]|(y & -> & Hy)]|(row' & Hin & H)].
      * by left.
      * right. exists row. split; [left|]. left. eauto.
      * right. exists row. split; [left|]. right. eauto.
      * right. exists row'. split; [by right|done].
    + intros [?|(row' & Hin & H)]; [by do 3 left|].
      apply elem_of_cons in Hin as [->|Hin]; [|right; eauto].
      left. destruct H as [(ys & y & Hys & Hy & ->)|(ys & y & Hys & Hy & ->)].
      * left. right. exists y. split; [done|congruence].
      * right. exists y. split; [done|congruence].
Qed.

End LoopCollectsFacts.

(** ** The frame and its two selections *)

Section FrameTwoSelectionsFacts.

Context {python_int : PyInt}.

Lemma DataFrame_columns_from ms cols c :
  c ∈ foldl add_keys cols ms ↔ c ∈ cols ∨ ∃ m, m ∈ ms ∧ c ∈ entry_keys m.
Proof.
  revert cols. induction ms as [|m ms IH]; intros cols; simpl.
  - split; [auto|]. intros [?|(m & Hin & _)]; [done|]. by apply elem_of_nil in Hin.
  - rewrite IH. unfold add_keys. rewrite elem_of_app, list_elem_of_filter.
    split.
    + intros [[?|[_ ?]]|(m' & Hin & ?)]; [by left|right..].
      * exists m. split; [left|done].
      * exists m'. split; [by right|done].
    + intros [?|(m' & Hin & Hk)]; [by do 2 left|].
      apply elem_of_cons in Hin as [->|Hin]; [|right; eauto].
      left. destruct (decide (c ∈ cols)); [by left|by right].
Qed.

Lemma DataFrame_columns ms c :
  c ∈ df_columns (DataFrame ms) ↔ ∃ m, m ∈ ms ∧ c ∈ entry_keys m.
Proof.
  unfold DataFrame; simpl. rewrite DataFrame_columns_from.
  split; [|auto]. intros [Hin|?]; [|done]. by apply elem_of_nil in Hin.
Qed.

Lemma select_winners_ok ms ws :
  select_winners (DataFrame ms) = Ok ws →
  ∀ y t, (y, t) ∈ ws ↔ WinnerEntry y (Some t) ∈ ms.
Proof.
  unfold select_winners, mbind, result_bind.
  destruct (require_columns _ ["Winner"]); simpl; [|done].
  destruct (require_columns _ ["Year"; "Winner"]); simpl; [|done].
  intros [= <-] y t. rewrite list_elem_of_omap. split.
  - intros (r & Hr & Heq). apply list_elem_of_fmap in Hr as (m & -> & Hm).
    destruct m as [y' t'|y' t']; simpl in Heq; [|done].
    destruct t'; simpl in Heq; [|done]. by injection Heq as -> ->.
  - intros Hm. exists (entry_row (WinnerEntry y (Some t))).
    split; [|done]. by apply list_elem_of_fmap_2.
Qed.

Lemma select_runners_ok ms rs :
  select_runners (DataFrame ms) = Ok rs →
  ∀ y t, (y, t) ∈ rs ↔ RunnerEntry y (Some t) ∈ ms.
Proof.
  unfold select_runners, mbind, result_bind.
  destruct (require_columns _ ["Runner-up"]); simpl; [|done].
  destruct (require_columns _ ["Year"; "Runner-up"]); simpl; [|done].
  intros [= <-] y t. rewrite list_elem_of_omap. split.
  - intros (r & Hr & Heq). apply list_elem_of_fmap in Hr as (m & -> & Hm).
    destruct m as [y' t'|y' t']; simpl in Heq; [done|].
    destruct t'; simpl in Heq; [|done]. by injection Heq as -> ->.
  - intros Hm. exists (entry_row (RunnerEntry y (Some t))).
    split; [|done]. by apply list_elem_of_fmap_2.
Qed.

End FrameTwoSelectionsFacts.

(** ** The left join *)

Section LeftJoinFacts.

Context {python_int : PyInt}.

Lemma elem_of_join_row rs w r :
  r ∈ join_row rs w ↔
    Year r = w.1 ∧ Winner r = w.2 ∧
    match Runner_up r with
    | Some t => (w.1, t) ∈ rs
    | None => ∀ t, (w.1, t) ∉ rs
    end.
Proof.
  unfold join_row.
  destruct (filter (λ x, x.1 = w.1) rs) as [|h hits] eqn:Hf.
  - assert (∀ t, (w.1, t) ∉ rs) as Hno.
    { intros t Hin. assert ((w.1, t) ∈ filter (λ x, x.1 = w.1) rs) as Hin'
        by (by apply list_elem_of_filter).
      rewrite Hf in Hin'. by apply elem_of_nil in Hin'. }
    rewrite list_elem_of_singleton. split.
    + by intros ->.
    + destruct r as [y wn [t|]]; simpl; intros (-> & -> & H); [|done].
      by apply Hno in H.
  - rewrite <- Hf, list_elem_of_fmap. split.
    + intros ([y t] & -> & Hin). apply list_elem_of_filter in Hin as [Hy Hin].
      simpl in *. by subst.
    + destruct r as [y wn [t|]]; simpl; intros (-> & -> & H).
      * exists (w.1, t). split; [done|]. by apply list_elem_of_filter.
      * assert (h ∈ filter (λ x, x.1 = w.1) rs) as Hh by (rewrite Hf; left).
        apply list_elem_of_filter in Hh as [Hy Hh]. destruct h as [y t].
        simpl in Hy; subst. by apply H in Hh.
Qed.

Lemma elem_of_merge_left ws rs r :
  r ∈ merge_left ws rs ↔
    (Year r, Winner r) ∈ ws ∧
    match Runner_up r with
    | Some t => (Year r, t) ∈ rs
    | None => ∀ t, (Year r, t) ∉ rs
    end.
Proof.
  unfold merge_left. rewrite list_elem_of_bind. split.
  - intros ([y t] & Hr & Hw). apply elem_of_join_row in Hr as (Hy & Ht & H).
    simpl in *. by rewrite Hy, Ht.
  - intros [Hw H]. exists (Year r, Winner r). split; [|done].
    by apply elem_of_join_row.
Qed.

End LeftJoinFacts.

(** ** The finals table *)

Section FinalsTableFacts.

Context {python_int : PyInt}.

Lemma finals_from_ok e wc rows :
  finals_from e wc = Ok rows →
  ∃ ms ws rs,
    collect wc [] = (ms, Ok tt)
    ∧ select_winners (DataFrame ms) = Ok ws
    ∧ select_runners (DataFrame ms) = Ok rs
    ∧ rows = drop_duplicates (merge_left ws rs).
Proof.
  unfold finals_from. rewrite finals_expander_spec.
  destruct (collect wc []) as [ms [[]|x]]; [|done].
  unfold build_finals.
  destruct (select_winners (DataFrame ms)) as [ws|] eqn:Hws; [|done].
  destruct (select_runners (DataFrame ms)) as [rs|] eqn:Hrs; [|done].
  simpl. intros [= <-]. by exists ms, ws, rs.
Qed.

(** The table does not depend on what the globals held before the run. *)
Lemma finals_from_any_env e wc : finals_from e wc = expand_finals wc.
Proof.
  unfold expand_finals, finals_from. rewrite !finals_expander_spec.
  destruct (collect wc []) as [ms [[]|x]]; [|done].
  unfold build_finals.
  destruct (select_winners (DataFrame ms)) as [ws|]; [|done].
  by destruct (select_runners (DataFrame ms)) as [rs|].
Qed.

Lemma won_by_entry wc ms y t :
  collect wc [] = (ms, Ok tt) →
  WinnerEntry y (Some t) ∈ ms ↔ won_by wc y t.
Proof.
  intros Hc. rewrite (collect_ok _ _ _ Hc). unfold won_by. split.
  - intros [Hin|(row & Hin & [(ys & y' & Hys & Hy & Heq)|(ys & y' & _ & _ & Heq)])];
      [by apply elem_of_nil in Hin| |done].
    injection Heq as -> Ht. by exists row, ys.
  - intros (row & ys & Hin & Ht & Hys & Hy). right. exists row.
    split; [done|]. left. exists ys, y. by rewrite Ht.
Qed.

Lemma runner_up_by_entry wc ms y t :
  collect wc [] = (ms, Ok tt) →
  RunnerEntry y (Some t) ∈ ms ↔ runner_up_by wc y t.
Proof.
  intros Hc. rewrite (collect_ok _ _ _ Hc). unfold runner_up_by. split.
  - intros [Hin|(row & Hin & [(ys & y' & _ & _ & Heq)|(ys & y' & Hys & Hy & Heq)])];
      [by apply elem_of_nil in Hin|done|].
    injection Heq as -> Ht. by exists row, ys.
  - intros (row & ys & Hin & Ht & Hys & Hy). right. exists row.
    split; [done|]. right. exists ys, y. by rewrite Ht.
Qed.

(** The rows of [finals_df], by membership: a (year, winner) pair some
    record lists, with a runner-up some record lists for that year, or NaN
    when no record lists one. *)
Lemma finals_rows e wc rows :
  finals_from e wc = Ok rows →
  ∀ r, r ∈ rows ↔
    won_by wc (Year r) (Winner r) ∧
    match Runner_up r with
    | Some t => runner_up_by wc (Year r) t
    | None => ∀ t, ¬ runner_up_by wc (Year r) t
    end.
Proof.
  intros (ms & ws & rs & Hc & Hws & Hrs & ->)%finals_from_ok r.
  rewrite elem_of_drop_duplicates, elem_of_merge_left.
  rewrite (select_winners_ok _ _ Hws), (won_by_entry _ _ _ _ Hc).
  destruct (Runner_up r) as [t|].
  - by rewrite (select_runners_ok _ _ Hrs), (runner_up_by_entry _ _ _ _ Hc).
  - split; intros [Hw Hn]; (split; [done|]); intros t.
    + rewrite <- (runner_up_by_entry _ _ _ _ Hc), <- (select_runners_ok _ _ Hrs).
      apply Hn.
    + rewrite (select_runners_ok _ _ Hrs), (runner_up_by_entry _ _ _ _ Hc).
      apply Hn.
Qed.

Lemma finals_NoDup e wc rows : finals_from e wc = Ok rows → NoDup rows.
Proof.
  intros (ms & ws & rs & _ & _ & _ & ->)%finals_from_ok.
  apply NoDup_drop_duplicates.
Qed.

(** When the expander goes through: it does as soon as every year cell
    parses, some record lists a year won and some record lists a year as
    runner-up. *)
Lemma finals_from_succeeds e wc ms :
  collect wc [] = (ms, Ok tt) →
  (∃ m, m ∈ ms ∧ is_winner_entry m = true) →
  (∃ m, m ∈ ms ∧ is_runner_entry m = true) →
  ∃ rows, finals_from e wc = Ok rows.
Proof.
  intros Hc (mw & Hmw & Hw) (mr & Hmr & Hr).
  assert ("Year" ∈ df_columns (DataFrame ms)) as HY.
  { apply DataFrame_columns. exists mw. split; [done|]. destruct mw; simpl; left. }
  assert ("Winner" ∈ df_columns (DataFrame ms)) as HW.
  { apply DataFrame_columns. exists mw. split; [done|].
    destruct mw; [simpl; right; left|done]. }
  assert ("Runner-up" ∈ df_columns (DataFrame ms)) as HR.
  { apply DataFrame_columns. exists mr. split; [done|].
    destruct mr; [done|simpl; right; left]. }
  unfold finals_from. rewrite finals_expander_spec, Hc. unfold build_finals.
  unfold select_winners, select_runners, require_columns, mbind, result_bind.
  rewrite !decide_True by (repeat constructor; done). simpl. eauto.
Qed.

End FinalsTableFacts.

Example expand_sample :
  expand_finals [uruguay; argentina; brazil]
  = Ok [ FinalRow 1930 "Uruguay" (Some "Argentina");
         FinalRow 1950 "Uruguay" (Some "Brazil");
         FinalRow 1978 "Argentina" None;
         FinalRow 1986 "Argentina" None;
         FinalRow 2022 "Argentina" None;
         FinalRow 1958 "Brazil" None;
         FinalRow 1962 "Brazil" None;
         FinalRow 1970 "Brazil" None;
         FinalRow 1994 "Brazil" None;
         FinalRow 2002 "Brazil" None ].
Proof. vm_compute. reflexivity. Qed.

Example expand_brazil_pairs :
  (collect [brazil] []).1
  = [ WinnerEntry 1958 (Some "Brazil"); WinnerEntry 1962 (Some "Brazil");
      WinnerEntry 1970 (Some "Brazil"); WinnerEntry 1994 (Some "Brazil");
      WinnerEntry 2002 (Some "Brazil");
      RunnerEntry 1950 (Some "Brazil"); RunnerEntry 1998 (Some "Brazil") ].
Proof. vm_compute. reflexivity. Qed.

Example expand_malformed :
  expand_finals [TeamRecord (Some "Spain") 1 0 1 (Text "2010, n/a") NaN]
  = Raise ValueError.
Proof. vm_compute. reflexivity. Qed.

(** ** Claims on the Finals Expander *)

(** C1, as stated, fails: [Year] is not unique in [finals_df] for every
    input.  When two records list the same year as won, the table has two
    rows for that year. *)
Lemma C1_year_not_unique :
  ¬ (∀ wc rows, expand_finals wc = Ok rows →
       ∀ r1 r2, r1 ∈ rows → r2 ∈ rows → Year r1 = Year r2 → r1 = r2).
Proof.
  intros H.
  assert (expand_finals two_winners
          = Ok [ FinalRow 1930 "Uruguay" (Some "Argentina");
                 FinalRow 1930 "Italy" (Some "Argentina") ]) as Hrun
    by (vm_compute; reflexivity).
  specialize (H _ _ Hrun (FinalRow 1930 "Uruguay" (Some "Argentina"))
                (FinalRow 1930 "Italy" (Some "Argentina"))).
  discriminate H; [left|right; left|reflexivity].
Qed.

Section ClaimsFinalsExpanderFacts.

Context {python_int : PyInt}.

(** C1, amended.  The rows of [finals_df] are pairwise distinct, and [Year]
    is unique (two positions of the table with the same year are the same
    position) whenever every year is listed as won by at most one team and as
    runner-up by at most one team. *)
Theorem C1_year_unique_when_single_valued e wc rows :
  finals_from e wc = Ok rows →
  (∀ y t1 t2, won_by wc y t1 → won_by wc y t2 → t1 = t2) →
  (∀ y t1 t2, runner_up_by wc y t1 → runner_up_by wc y t2 → t1 = t2) →
  NoDup rows ∧
  ∀ i j r1 r2, rows !! i = Some r1 → rows !! j = Some r2 →
               Year r1 = Year r2 → i = j.
Proof.
  intros Hrun Hw Hr. pose proof (finals_NoDup _ _ _ Hrun) as Hnd.
  split; [done|]. intros i j r1 r2 H1 H2 Hy.
  assert (r1 = r2) as <-; [|by eapply NoDup_lookup].
  apply list_elem_of_lookup_2 in H1, H2.
  apply (finals_rows _ _ _ Hrun) in H1 as [Hw1 Hr1], H2 as [Hw2 Hr2].
  destruct r1 as [y1 w1 u1], r2 as [y2 w2 u2]; simpl in *; subst y2.
  f_equal; [by eapply Hw|].
  destruct u1 as [t1|], u2 as [t2|]; [f_equal; by eapply Hr| | |done].
  - by apply Hr2 in Hr1.
  - by apply Hr1 in Hr2.
Qed.

(** C9.  Every row of [finals_df] has a winner whose record lists the row's
    year as won; a year no record lists as won has no row (also when records
    list it as runner-up). *)
Theorem C9_rows_have_winner e wc rows :
  finals_from e wc = Ok rows →
  (∀ r, r ∈ rows → won_by wc (Year r) (Winner r))
  ∧ (∀ y, (∀ t, ¬ won_by wc y t) → ∀ r, r ∈ rows → Year r ≠ y).
Proof.
  intros Hrun.
  assert (∀ r, r ∈ rows → won_by wc (Year r) (Winner r)) as Hwin.
  { intros r Hr. by apply (finals_rows _ _ _ Hrun) in Hr as [? _]. }
  split; [done|]. intros y Hno r Hr <-. by apply (Hno (Winner r)), Hwin.
Qed.

End ClaimsFinalsExpanderFacts.

(** C4, on the failing input: when no record lists any runner-up year, line
    43 raises [KeyError] and no table is produced. *)
Theorem C4_no_runner_up_column :
  expand_finals only_winner = Raise KeyError
  ∧ won_by only_winner 1958 "Brazil"
  ∧ ∀ t, ¬ runner_up_by only_winner 1958 t.
Proof.
  split; [vm_compute; reflexivity|]. split.
  - exists (TeamRecord (Some "Brazil") 1 0 1 (Text "1958") (Text em_dash)), [1958].
    repeat split; [left|left].
  - intros t (row & ys & Hin & _ & Hys & Hy).
    apply list_elem_of_singleton in Hin as ->. vm_compute in Hys.
    injection Hys as <-. by apply elem_of_nil in Hy.
Qed.

Section ClaimsFinalsExpanderFacts2.

Context {python_int : PyInt}.

(** The left join where the expander goes through: a year won by a team
    and listed by no record as runner-up has the row with NaN as
    [Runner-up], and every row of that year is this one. *)
Lemma left_join_keeps_unmatched e wc rows y t :
  finals_from e wc = Ok rows →
  won_by wc y t →
  (∀ u, ¬ runner_up_by wc y u) →
  FinalRow y t None ∈ rows
  ∧ ∀ r, r ∈ rows → Year r = y → Runner_up r = None.
Proof.
  intros Hrun Hw Hno. split.
  - by apply (finals_rows _ _ _ Hrun).
  - intros r Hr <-. apply (finals_rows _ _ _ Hrun) in Hr as [_ Hr].
    destruct (Runner_up r) as [u|]; [by apply Hno in Hr|done].
Qed.

End ClaimsFinalsExpanderFacts2.

(** Membership in a literal list, and evaluation of a year cell of a literal
    record. *)
Ltac in_literal H :=
  repeat (apply elem_of_cons in H as [H|H]);
  [..|by apply elem_of_nil in H].

Ltac listed_years H :=
  let row := fresh "row" in
  let ys := fresh "ys" in
  let Hin := fresh "Hin" in
  let Ht := fresh "Ht" in
  let Hys := fresh "Hys" in
  let Hy := fresh "Hy" in
  destruct H as (row & ys & Hin & Ht & Hys & Hy);
  in_literal Hin; subst row; vm_compute in Hys, Ht;
  injection Hys as <-; try discriminate Ht; injection Ht as <-;
  try (by apply elem_of_nil in Hy); in_literal Hy; subst.

Lemma C1_witness :
  NoDup [ FinalRow 1930 "Uruguay" (Some "Argentina");
          FinalRow 1950 "Uruguay" None ]
  ∧ ∀ i j r1 r2,
      [ FinalRow 1930 "Uruguay" (Some "Argentina");
        FinalRow 1950 "Uruguay" None ] !! i = Some r1 →
      [ FinalRow 1930 "Uruguay" (Some "Argentina");
        FinalRow 1950 "Uruguay" None ] !! j = Some r2 →
      Year r1 = Year r2 → i = j.
Proof.
  apply (C1_year_unique_when_single_valued unbound
           [uruguay; TeamRecord (Some "Argentina") 0 1 1 NaN (Text "1930")]).
  - vm_compute. reflexivity.
  - intros y t1 t2 H1 H2. listed_years H1; listed_years H2; done.
  - intros y t1 t2 H1 H2. listed_years H1; listed_years H2; done.
Defined.

Lemma C9_witness :
  (∀ r, r ∈ [ FinalRow 1930 "Uruguay" (Some "Argentina");
              FinalRow 1950 "Uruguay" None ] →
        won_by [uruguay; TeamRecord (Some "Argentina") 0 1 1 NaN (Text "1930, 1990")]
               (Year r) (Winner r))
  ∧ (∀ y, (∀ t, ¬ won_by [uruguay; TeamRecord (Some "Argentina") 0 1 1 NaN
                                     (Text "1930, 1990")] y t) →
          ∀ r, r ∈ [ FinalRow 1930 "Uruguay" (Some "Argentina");
                     FinalRow 1950 "Uruguay" None ] → Year r ≠ y).
Proof.
  apply (C9_rows_have_winner unbound). vm_compute. reflexivity.
Defined.

Section ClaimsFinalsExpanderFacts3.

Context {python_int : PyInt}.

(** C6.  A record whose [Years_runners_up] is the no-data marker appends no
    (Year, Runner-up) dict to [matches]; a record whose [Years_won] is the
    marker appends no (Year, Winner) dict. *)
Theorem C6_no_data_marker_adds_nothing row e ms :
  matches e = Some ms →
  (Years_runners_up row = Text em_dash →
   ∃ added, matches (expand_row row e).1 = Some (ms ++ added)
            ∧ ∀ m, m ∈ added → is_runner_entry m = false)
  ∧ (Years_won row = Text em_dash →
     ∃ added, matches (expand_row row e).1 = Some (ms ++ added)
              ∧ ∀ m, m ∈ added → is_winner_entry m = false).
Proof.
  intros Hms. unfold expand_row. rewrite bind_unfold.
  rewrite (expand_cell_spec _ _ _ ms) by done. split; intros Hdash.
  - destruct (cell_years (Years_won row)) as [ws|x].
    + rewrite (expand_cell_spec _ _ _ (ms ++ ((λ y, WinnerEntry y (Team row)) <$> ws)))
        by (by destruct e).
      rewrite Hdash. simpl. exists ((λ y, WinnerEntry y (Team row)) <$> ws).
      split; [by rewrite app_nil_r|].
      by intros m (y & -> & _)%list_elem_of_fmap.
    + exists []. simpl. rewrite app_nil_r. split; [done|].
      by intros m ?%elem_of_nil.
  - rewrite Hdash. simpl. rewrite app_nil_r, set_matches_id by done.
    rewrite (expand_cell_spec _ _ _ ms) by done.
    destruct (cell_years (Years_runners_up row)) as [rs|x]; simpl.
    + exists ((λ y, RunnerEntry y (Team row)) <$> rs). split; [done|].
      by intros m (y & -> & _)%list_elem_of_fmap.
    + exists []. rewrite app_nil_r. split; [done|]. by intros m ?%elem_of_nil.
Qed.

End ClaimsFinalsExpanderFacts3.

Lemma C6_witness :
  (∃ added, matches (expand_row uruguay (set_matches [] unbound)).1
            = Some ([] ++ added)
            ∧ ∀ m, m ∈ added → is_runner_entry m = false)
  ∧ (∃ added, matches (expand_row netherlands (set_matches [] unbound)).1
              = Some ([] ++ added)
              ∧ ∀ m, m ∈ added → is_winner_entry m = false).
Proof.
  split.
  - apply (C6_no_data_marker_adds_nothing uruguay (set_matches [] unbound) []);
      reflexivity.
  - apply (C6_no_data_marker_adds_nothing netherlands (set_matches [] unbound) []);
      reflexivity.
Defined.

Section ClaimsFinalsExpanderFacts4.

Context {python_int : PyInt}.

(** C7.  Running the expander again, on the globals the first run left,
    changes nothing: the same globals, the same outcome and the same
    [finals_df], which is the table of a run from unbound globals. *)
Theorem C7_rerun_identical wc e :
  finals_expander wc (finals_expander wc e).1 = finals_expander wc e
  ∧ finals_from (finals_expander wc e).1 wc = finals_from e wc
  ∧ finals_from e wc = expand_finals wc.
Proof.
  split; [|by rewrite !finals_from_any_env].
  rewrite !finals_expander_spec.
  destruct (collect wc []) as [ms [[]|x]]; [|by destruct e].
  unfold build_finals.
  destruct (select_winners (DataFrame ms)) as [ws|]; [|by destruct e].
  destruct (select_runners (DataFrame ms)) as [rs|]; by destruct e.
Qed.

End ClaimsFinalsExpanderFacts4.

(** ** Per-year lookup *)

Section PerYearLookupFacts.

Context {python_int : PyInt}.

(** C10.  For a year no row of [finals_df] has, [update_result] raises
    [IndexError]. *)
Theorem C10_missing_year_raises finals y :
  (∀ r, r ∈ finals → Year r ≠ y) →
  update_result finals y = Raise IndexError.
Proof.
  intros Hno. unfold update_result.
  destruct (filter (λ r, Year r = y) finals) as [|r rest] eqn:Hf; [done|].
  assert (r ∈ filter (λ r, Year r = y) finals) as Hr by (rewrite Hf; left).
  apply list_elem_of_filter in Hr as [Hy Hr]. by apply Hno in Hr.
Qed.

End PerYearLookupFacts.

Lemma C10_witness :
  update_result [ FinalRow 1930 "Uruguay" (Some "Argentina");
                  FinalRow 1950 "Uruguay" None ] 1942
  = Raise IndexError.
Proof.
  apply C10_missing_year_raises. intros r Hr. in_literal Hr; by subst.
Defined.

Section PerYearLookupFacts2.

Context {python_int : PyInt}.

Lemma update_result_found finals y :
  (∃ r, r ∈ finals ∧ Year r = y) →
  ∃ r, r ∈ finals ∧ Year r = y
       ∧ update_result finals y
         = Ok [ H3 (pretty y +:+ " World Cup Final");
                P ("Winner: " +:+ Winner r) "gold";
                P ("Runner-up: " +:+ format_cell (Runner_up r)) "silver" ].
Proof.
  intros (r & Hr & Hy). unfold update_result.
  destruct (filter (λ r, Year r = y) finals) as [|r' rest] eqn:Hf.
  - assert (r ∈ filter (λ r, Year r = y) finals) as Hin
      by (by apply list_elem_of_filter).
    rewrite Hf in Hin. by apply elem_of_nil in Hin.
  - assert (r' ∈ filter (λ r, Year r = y) finals) as Hin by (rewrite Hf; left).
    apply list_elem_of_filter in Hin as [Hy' Hin]. by exists r'.
Qed.

End PerYearLookupFacts2.

Example update_result_1930 :
  update_result [ FinalRow 1930 "Uruguay" (Some "Argentina") ] 1930
  = Ok [ H3 "1930 World Cup Final"; P "Winner: Uruguay" "gold";
         P "Runner-up: Argentina" "silver" ].
Proof. vm_compute. reflexivity. Qed.

(** ** Table Selector *)

Section TableSelectorFacts.

Context {python_int : PyInt}.

Lemma select_loop_first (str : list string → string) tables :
  match select_loop str tables with
  | Some t =>
      ∃ before after, tables = before ++ t :: after
                      ∧ is_match str t = true
                      ∧ Forall (λ u, is_match str u = false) before
  | None => Forall (λ u, is_match str u = false) tables
  end.
Proof.
  induction tables as [|t rest IH]; simpl; [constructor|].
  destruct (is_match str t) eqn:Ht.
  - exists [], rest. by repeat split.
  - destruct (select_loop str rest) as [u|].
    + destruct IH as (before & after & -> & Hu & Hb).
      exists (t :: before), after. repeat split; [done|]. by constructor.
    + by constructor.
Qed.

End TableSelectorFacts.

Example select_sample :
  table_selector index_repr
    [ Table ["Year"; "Winners"; "Score"] object [];
      Table ["Team"; "Winners"; "Runners-up"] object [];
      Table ["Team"; "Winners"] object [] ]
  = Ok (Table ["Team"; "Winners"; "Runners-up"] object []).
Proof. vm_compute. reflexivity. Qed.

(** C3, as stated, fails: with no matching table the failure is the
    [NameError] of the first read of [wcWinnerData], not a table-not-found
    error. *)
Lemma C3_no_match_is_NameError :
  ∃ e, table_selector index_repr
         [ Table ["Year"; "Winners"; "Score"] object [];
           Table ["Team"; "Titles"] object [] ] = Raise e
       ∧ exn_name e ≠ "NotFoundError"
       ∧ exn_name e ≠ "TableNotFoundError".
Proof. exists NameError. by repeat split. Qed.

Section TableSelectorFacts2.

Context {python_int : PyInt}.

(** C3, amended.  The selector returns the first table whose rendered
    header contains both ["Team"] and ["Winners"]; when no table matches, it
    fails with [NameError]. *)
Theorem C3_first_match_or_NameError (str : list string → string) tables :
  match table_selector str tables with
  | Ok t =>
      ∃ before after, tables = before ++ t :: after
                      ∧ PyStr.contains "Team" (str (columns t)) = true
                      ∧ PyStr.contains "Winners" (str (columns t)) = true
                      ∧ Forall (λ u, is_match str u = false) before
  | Raise e => e = NameError ∧ Forall (λ u, is_match str u = false) tables
  end.
Proof.
  unfold table_selector. pose proof (select_loop_first str tables) as H.
  destruct (select_loop str tables) as [t|]; simpl; [|done].
  destruct H as (before & after & -> & Ht & Hb). exists before, after.
  unfold is_match in Ht. apply andb_true_iff in Ht as [??]. done.
Qed.

End TableSelectorFacts2.

(** ** Team Normalizer *)

Section TeamNormalizerFacts.

Context {python_int : PyInt}.

Lemma zip_records kept wins rups tots :
  Forall2 (λ r z, astype_int (raw_Wins r) = Ok z) kept wins →
  Forall2 (λ r z, astype_int (raw_Runners_up r) = Ok z) kept rups →
  Forall2 (λ r z, astype_int (raw_Total_finals r) = Ok z) kept tots →
  Forall2 (λ r rec,
             Team rec = clean_Team (raw_Team r)
             ∧ astype_int (raw_Wins r) = Ok (Wins rec)
             ∧ astype_int (raw_Runners_up r) = Ok (Runners_up rec)
             ∧ astype_int (raw_Total_finals r) = Ok (Total_finals rec)
             ∧ Years_won rec = raw_Years_won r
             ∧ Years_runners_up rec = raw_Years_runners_up r)
          kept (zip_with make_record kept (zip wins (zip rups tots))).
Proof.
  intros Hw. revert rups tots.
  induction Hw as [|r w kept wins Hr Hw IH]; intros rups tots Hu Ht;
    [constructor|].
  inversion Hu as [|? u ? rups' ? Hu']; subst.
  inversion Ht as [|? t ? tots' ? Ht']; subst.
  simpl. constructor; [done|]. by apply IH.
Qed.

Lemma normalize_rows_ok d rows recs :
  normalize_rows d rows = Ok recs →
  Forall2 (λ r rec,
             Team rec = clean_Team (raw_Team r)
             ∧ astype_int (raw_Wins r) = Ok (Wins rec)
             ∧ astype_int (raw_Runners_up r) = Ok (Runners_up rec)
             ∧ astype_int (raw_Total_finals r) = Ok (Total_finals rec)
             ∧ Years_won rec = raw_Years_won r
             ∧ Years_runners_up rec = raw_Years_runners_up r)
          (dropna_Team rows) recs.
Proof.
  unfold normalize_rows, mbind, result_bind.
  destruct (str_accessor d); simpl; [|done].
  destruct (rmap astype_int (raw_Wins <$> _)) as [wins|] eqn:Hw; [|done].
  destruct (rmap astype_int (raw_Runners_up <$> _)) as [rups|] eqn:Hu; [|done].
  destruct (rmap astype_int (raw_Total_finals <$> _)) as [tots|] eqn:Ht; [|done].
  simpl. intros [= <-].
  apply rmap_Forall2, Forall2_fmap_l in Hw, Hu, Ht. by apply zip_records.
Qed.

Lemma team_normalizer_ok t recs :
  team_normalizer t = Ok recs →
  length (columns t) = 6%nat
  ∧ normalize_rows (Team_dtype t) (body t) = Ok recs.
Proof.
  unfold team_normalizer, set_columns, mbind, result_bind.
  by destruct (decide (length (columns t) = 6%nat)).
Qed.

Lemma astype_int_holds c v : astype_int c = Ok v → holds_count c v.
Proof.
  unfold holds_count, cast_int64.
  destruct c as [z|s|]; cbn [astype_int cell_value]; [| |done].
  - destruct (decide (int64_min ≤ z ≤ int64_max)) as [Hz|Hz].
    + intros [= <-]. exists z. rewrite decide_True by lia.
      unfold int64_min, int64_max in *. repeat split; lia.
    + destruct (decide (int64_max < z ≤ uint64_max)) as [Hu|Hu]; [|done].
      intros [= <-]. exists z. rewrite decide_False by lia.
      unfold int64_min, int64_max, uint64_max in *. repeat split; lia.
  - destruct (py_int s) as [z|]; [|done].
    destruct (decide (int64_min ≤ z ≤ int64_max)) as [Hz|Hz]; [|done].
    intros [= <-]. exists z. rewrite decide_True by lia.
    unfold int64_min, int64_max in *. repeat split; lia.
Qed.

Lemma clean_name_empty name :
  clean_name name = "" ↔ PyStr.strip (PyStr.sub_brackets name) = "".
Proof.
  unfold clean_name, rename. destruct (decide _) as [->|]; [|done].
  by split.
Qed.

Lemma dropna_Team_is_Some rows r : r ∈ dropna_Team rows → is_Some (raw_Team r) ∧ r ∈ rows.
Proof. unfold dropna_Team. by rewrite list_elem_of_filter. Qed.

End TeamNormalizerFacts.

(** C2, as stated, fails: a count cell that holds a negative integer gives a
    negative count, and a name that is only a footnote gives the empty
    name. *)
Lemma C2_negative_count_empty_name :
  ∃ rec,
    team_normalizer
      (Table ["Team"; "Winners"; "Runners-up"; "Total finals";
              "Years won"; "Years runners-up"] object
         [ RawRow (Some "[a]") (TextCell "-1") (IntCell 0) (IntCell (-1))
                  NaN NaN ])
    = Ok [rec]
    ∧ Wins rec < 0 ∧ Total_finals rec < 0 ∧ Team rec = Some "".
Proof.
  eexists. split; [vm_compute; reflexivity|]. by repeat split.
Qed.

Section TeamNormalizerFacts2.

Context {python_int : PyInt}.

(** C2, amended.  After the normalizer every record has a [Team] that is not
    NaN: the cleaned name of its row, which is the empty text exactly when
    nothing is left of the row's name once its bracketed notes and the white
    space around the rest are removed.  Its counts are the int64 casts of the integers the row's count
    cells hold: a count is non-negative exactly when the integer of its cell
    lies in [[0, 2^63)]; a negative integer stays negative, and an integer of
    [2^63] or more (a cell of an unsigned column) wraps to a negative
    count. *)
Theorem C2_normalized_records t recs :
  team_normalizer t = Ok recs →
  Forall2 (λ r rec,
             (∃ name, raw_Team r = Some name
                      ∧ Team rec = Some (clean_name name)
                      ∧ (Team rec = Some ""
                         ↔ PyStr.strip (PyStr.sub_brackets name) = ""))
             ∧ holds_count (raw_Wins r) (Wins rec)
             ∧ holds_count (raw_Runners_up r) (Runners_up rec)
             ∧ holds_count (raw_Total_finals r) (Total_finals rec))
          (dropna_Team (body t)) recs
  ∧ (∀ rec, rec ∈ recs → Team rec ≠ None).
Proof.
  intros [_ Hn%normalize_rows_ok]%team_normalizer_ok.
  assert (Forall2 (λ r rec,
             (∃ name, raw_Team r = Some name
                      ∧ Team rec = Some (clean_name name)
                      ∧ (Team rec = Some ""
                         ↔ PyStr.strip (PyStr.sub_brackets name) = ""))
             ∧ holds_count (raw_Wins r) (Wins rec)
             ∧ holds_count (raw_Runners_up r) (Runners_up rec)
             ∧ holds_count (raw_Total_finals r) (Total_finals rec))
          (dropna_Team (body t)) recs) as HF.
  { apply Forall2_same_length_lookup. split; [by eapply Forall2_length|].
    intros i r rec Hr Hrec.
    destruct (Forall2_lookup_lr _ _ _ _ _ _ Hn Hr Hrec) as (HT & ? & ? & ? & _).
    apply list_elem_of_lookup_2, dropna_Team_is_Some in Hr as [[name Hname] _].
    split; [|by repeat split; apply astype_int_holds].
    exists name. rewrite HT, Hname. repeat split; [by intros [= ?%clean_name_empty]|].
    intros He. simpl. f_equal. by apply clean_name_empty. }
  split; [done|].
  intros rec (i & Hrec)%list_elem_of_lookup_1.
  destruct (Forall2_lookup_r _ _ _ _ _ HF Hrec)
    as (r & _ & (name & _ & -> & _) & _).
  done.
Qed.

(** C5.  The normalizer turns the name ["West Germany"] into ["Germany"] and
    ["Brazil[a]"] into ["Brazil"], in every row that holds them. *)
Theorem C5_canonical_names t recs :
  team_normalizer t = Ok recs →
  clean_name "West Germany" = "Germany"
  ∧ clean_name "Brazil[a]" = "Brazil"
  ∧ Forall2 (λ r rec,
               (raw_Team r = Some "West Germany" → Team rec = Some "Germany")
               ∧ (raw_Team r = Some "Brazil[a]" → Team rec = Some "Brazil"))
            (dropna_Team (body t)) recs.
Proof.
  intros [_ Hn%normalize_rows_ok]%team_normalizer_ok.
  do 2 (split; [reflexivity|]).
  eapply Forall2_impl; [exact Hn|]. intros r rec (HT & _). simpl in HT.
  split; intros Hname; by rewrite HT, Hname.
Qed.

End TeamNormalizerFacts2.

Lemma C2_witness :
  Forall2 (λ r rec,
             (∃ name, raw_Team r = Some name
                      ∧ Team rec = Some (clean_name name)
                      ∧ (Team rec = Some ""
                         ↔ PyStr.strip (PyStr.sub_brackets name) = ""))
             ∧ holds_count (raw_Wins r) (Wins rec)
             ∧ holds_count (raw_Runners_up r) (Runners_up rec)
             ∧ holds_count (raw_Total_finals r) (Total_finals rec))
          (dropna_Team (body sample_table)) sample_records
  ∧ (∀ rec, rec ∈ sample_records → Team rec ≠ None).
Proof.
  apply (C2_normalized_records sample_table sample_records).
  vm_compute. reflexivity.
Defined.

Lemma C5_witness :
  clean_name "West Germany" = "Germany"
  ∧ clean_name "Brazil[a]" = "Brazil"
  ∧ Forall2 (λ r rec,
               (raw_Team r = Some "West Germany" → Team rec = Some "Germany")
               ∧ (raw_Team r = Some "Brazil[a]" → Team rec = Some "Brazil"))
            (dropna_Team (body sample_table)) sample_records.
Proof.
  apply (C5_canonical_names sample_table sample_records).
  vm_compute. reflexivity.
Defined.

(** ** Country Code Mapper *)

Section CountryCodeMapperFacts.

Context {python_int : PyInt}.

Lemma iso_codes_list_to_map : iso_codes = list_to_map iso_codes_literal.
Proof. vm_compute. reflexivity. Qed.

Lemma iso_codes_lookup k v :
  iso_codes !! k = Some v ↔ (k, v) ∈ iso_codes_literal.
Proof.
  rewrite iso_codes_list_to_map. symmetry. apply elem_of_list_to_map.
  apply (bool_decide_unpack _). vm_compute. exact I.
Qed.

Lemma elem_of_add_codes wc c :
  c ∈ add_codes wc ↔ record c ∈ wc ∧ Code c = map_code (Team (record c)).
Proof.
  unfold add_codes. rewrite list_elem_of_fmap. split.
  - by intros (r & -> & Hr).
  - intros [Hr Hc]. exists (record c). split; [|done].
    destruct c; simpl in *; by subst.
Qed.

End CountryCodeMapperFacts.

(** C8, as stated, fails: the lookup of line 55 runs on every row of
    [wcWinnerData], before the filter of line 57; a team without a win is
    looked up too (and the table has codes for such teams). *)
Lemma C8_lookup_not_only_for_champions :
  ¬ (∀ wc c, c ∈ add_codes wc → 0 < Wins (record c)).
Proof.
  intros H.
  specialize (H [netherlands] (Coded netherlands (Some "NLD"))).
  assert (0 < Wins netherlands) as Hw; [|by vm_compute in Hw].
  apply H. apply elem_of_add_codes. split; [left|reflexivity].
Qed.

Section CountryCodeMapperFacts2.

Context {python_int : PyInt}.

(** C8, amended.  The mapper is a lookup in a fixed table of 13 entries: a
    name of the table gets its code, any other name and NaN get NaN.  The
    lookup is made for every row of [wcWinnerData]; the rows kept for the map
    are those with [Wins > 0], each with the code of its team. *)
Theorem C8_country_code_mapper :
  size iso_codes = 13%nat
  ∧ (∀ k v, map_code (Some k) = Some v ↔ (k, v) ∈ iso_codes_literal)
  ∧ (∀ k, k ∉ iso_codes_literal.*1 → map_code (Some k) = None)
  ∧ map_code None = None
  ∧ (∀ wc c, c ∈ add_codes wc ↔
               record c ∈ wc ∧ Code c = map_code (Team (record c)))
  ∧ (∀ wc c, c ∈ winnersWithCodes wc ↔
               record c ∈ wc ∧ Code c = map_code (Team (record c))
               ∧ 0 < Wins (record c)).
Proof.
  split; [vm_compute; reflexivity|].
  split; [intros k v; apply iso_codes_lookup|].
  split.
  { intros k Hk. simpl. destruct (iso_codes !! k) as [v|] eqn:Hv; [|done].
    apply iso_codes_lookup in Hv. destruct Hk.
    apply list_elem_of_fmap. by exists (k, v). }
  split; [done|]. split; [apply elem_of_add_codes|].
  intros wc c. unfold winnersWithCodes.
  rewrite list_elem_of_filter, elem_of_add_codes. tauto.
Qed.

End CountryCodeMapperFacts2.

Example codes_sample :
  add_codes [uruguay; netherlands]
  = [ Coded uruguay (Some "URY"); Coded netherlands (Some "NLD") ]
  ∧ winnersWithCodes [uruguay; netherlands] = [ Coded uruguay (Some "URY") ]
  ∧ map_code (Some "West Germany") = None.
Proof. vm_compute. by repeat split. Qed.

(** * Further properties *)

(** ** Cleaning a team name (lines 18-23) *)

Section CleaningTeamNameFacts.

Context {python_int : PyInt}.

Lemma space_width_app v q k : PyStr.space_width v = S k → PyStr.space_width (v +:+ q) = S k.
Proof.
  destruct v as [|a v]; [done|].
  change (String a v +:+ q) with (String a (v +:+ q)). cbn [PyStr.space_width].
  destruct (PyStr.isspace a); [done|].
  destruct v as [|b v]; [done|].
  change (String b v +:+ q) with (String b (v +:+ q)). cbv iota.
  destruct (PyStr.isspace2 a b); [done|].
  destruct v as [|c v]; [done|].
  by change (String c v +:+ q) with (String c (v +:+ q)).
Qed.

Lemma lstrip_from_space_width k s : PyStr.space_width (PyStr.lstrip_from k s) = O.
Proof.
  revert k. induction s as [|c s IH]; intros k; [done|].
  cbn [PyStr.lstrip_from]. destruct k as [|k]; [|apply IH].
  destruct (PyStr.space_width (String c s)) eqn:Hw; [done|apply IH].
Qed.

Lemma lstrip_id s : PyStr.space_width s = O → PyStr.lstrip s = s.
Proof. destruct s as [|c s]; [done|]. unfold PyStr.lstrip. cbn [PyStr.lstrip_from]. by intros ->. Qed.

Lemma lstrip_from_suffix k s : ∃ p, s = p +:+ PyStr.lstrip_from k s.
Proof.
  revert k. induction s as [|c s IH]; intros k; [by exists ""|].
  cbn [PyStr.lstrip_from]. destruct k as [|k].
  - destruct (PyStr.space_width (String c s)); [by exists ""|].
    destruct (IH n) as [p Hp]. exists (String c p).
    change (String c s = String c (p +:+ PyStr.lstrip_from n s)). by rewrite <- Hp.
  - destruct (IH k) as [p Hp]. exists (String c p).
    change (String c s = String c (p +:+ PyStr.lstrip_from k s)). by rewrite <- Hp.
Qed.

Lemma blank_from_app k a b :
  PyStr.blank_from k a = true → PyStr.blank_from 0 b = true →
  PyStr.blank_from k (a +:+ b) = true.
Proof.
  revert k. induction a as [|c a IH]; intros k.
  - destruct k; [done|]. done.
  - cbn [PyStr.blank_from]. destruct k as [|k]; [|apply IH].
    destruct (PyStr.space_width (String c a)) eqn:Hw; [done|].
    intros Ha Hb. change (String c a +:+ b) with (String c (a +:+ b)).
    cbn [PyStr.blank_from].
    change (String c (a +:+ b)) with (String c a +:+ b).
    rewrite (space_width_app _ _ _ Hw). by apply IH.
Qed.

Lemma rstrip_prefix s : ∃ q, s = PyStr.rstrip s +:+ q ∧ PyStr.blank_from 0 q = true.
Proof.
  induction s as [|c s IH]; [by exists ""|].
  cbn [PyStr.rstrip]. destruct (PyStr.blank_from 0 (String c s)) eqn:Hb.
  - by exists (String c s).
  - destruct IH as (q & Hq & Hbq). exists q. split; [|done].
    change (String c s = String c (PyStr.rstrip s +:+ q)). by rewrite <- Hq.
Qed.

Lemma rstrip_idem s : PyStr.rstrip (PyStr.rstrip s) = PyStr.rstrip s.
Proof.
  induction s as [|c s IH]; [done|].
  cbn [PyStr.rstrip]. destruct (PyStr.blank_from 0 (String c s)) eqn:Hb; [done|].
  cbn [PyStr.rstrip]. rewrite IH.
  destruct (PyStr.blank_from 0 (String c (PyStr.rstrip s))) eqn:Hb'; [|done].
  destruct (rstrip_prefix s) as (q & Hq & Hbq).
  pose proof (blank_from_app 0 _ _ Hb' Hbq) as H.
  change (String c (PyStr.rstrip s) +:+ q) with (String c (PyStr.rstrip s +:+ q)) in H.
  rewrite <- Hq in H. congruence.
Qed.

Lemma strip_idem s : PyStr.strip (PyStr.strip s) = PyStr.strip s.
Proof.
  unfold PyStr.strip. rewrite (lstrip_id (PyStr.rstrip _)); [apply rstrip_idem|].
  destruct (rstrip_prefix (PyStr.lstrip s)) as (q & Hq & _).
  pose proof (lstrip_from_space_width 0 s) as Hw. fold (PyStr.lstrip s) in Hw.
  destruct (PyStr.space_width (PyStr.rstrip (PyStr.lstrip s))) eqn:Hv; [done|].
  apply (space_width_app _ q) in Hv. rewrite <- Hq in Hv. congruence.
Qed.

Lemma sub_brackets_from_length n s :
  (String.length (PyStr.sub_brackets_from n s) ≤ String.length s)%nat.
Proof.
  revert n. induction s as [|c s IH]; intros n; simpl; [done|].
  destruct n as [|k]; [|by etrans; [apply IH|lia]].
  destruct (decide (c = "["%char)); [|simpl; by apply le_n_S].
  destruct (PyStr.bracket_tail s); [by etrans; [apply IH|lia]|].
  simpl. by apply le_n_S.
Qed.

(** No closing bracket on the first line before the cut, none after it. *)
Lemma bracket_tail_sub_brackets s :
  PyStr.bracket_tail s = None →
  PyStr.bracket_tail (PyStr.sub_brackets_from 0 s) = None.
Proof.
  induction s as [|c s IH]; simpl; [done|].
  destruct (decide (c = "010"%char)) as [->|Hnl]; [done|].
  destruct (PyStr.bracket_tail s) as [n|] eqn:Ht; [done|].
  destruct (decide (c = "]"%char)) as [->|Hcl]; [done|]. intros _.
  destruct (decide (c = "["%char)); simpl;
    rewrite decide_False, IH, decide_False by done; done.
Qed.

Lemma sub_brackets_from_idem n s :
  PyStr.sub_brackets_from 0 (PyStr.sub_brackets_from n s)
  = PyStr.sub_brackets_from n s.
Proof.
  revert n. induction s as [|c s IH]; intros n; simpl; [done|].
  destruct n as [|k]; [|apply IH].
  destruct (decide (c = "["%char)) as [->|Hc].
  - destruct (PyStr.bracket_tail s) as [n|] eqn:Ht; [apply IH|].
    simpl. by rewrite (bracket_tail_sub_brackets _ Ht), IH.
  - simpl. by rewrite decide_False, IH.
Qed.

(** A text without a bracketed note: what a fixed point of the substitution
    looks like at its head. *)
Lemma sub_brackets_fixed_cons c s :
  PyStr.sub_brackets_from 0 (String c s) = String c s →
  (c ≠ "["%char ∨ PyStr.bracket_tail s = None)
  ∧ PyStr.sub_brackets_from 0 s = s.
Proof.
  simpl. destruct (decide (c = "["%char)) as [->|Hc].
  - destruct (PyStr.bracket_tail s) as [n|] eqn:Ht.
    + intros Heq. pose proof (sub_brackets_from_length n s) as Hlen.
      rewrite Heq in Hlen. simpl in Hlen. lia.
    + intros [= ?]. auto.
  - intros [= ?]. auto.
Qed.

Lemma sub_brackets_fixed_intro c s :
  c ≠ "["%char ∨ PyStr.bracket_tail s = None →
  PyStr.sub_brackets_from 0 s = s →
  PyStr.sub_brackets_from 0 (String c s) = String c s.
Proof.
  intros Hc Hs. simpl. destruct (decide (c = "["%char)) as [->|?].
  - destruct Hc as [?|Ht]; [done|]. by rewrite Ht, Hs.
  - by rewrite Hs.
Qed.

Lemma sub_brackets_fixed_suffix p t :
  PyStr.sub_brackets_from 0 (p +:+ t) = p +:+ t →
  PyStr.sub_brackets_from 0 t = t.
Proof.
  induction p as [|c p IH]; [done|].
  change (String c p +:+ t) with (String c (p +:+ t)).
  intros [_ H]%sub_brackets_fixed_cons. auto.
Qed.

Lemma bracket_tail_prefix r q :
  PyStr.bracket_tail (r +:+ q) = None → PyStr.bracket_tail r = None.
Proof.
  induction r as [|c r IH]; [done|].
  change (String c r +:+ q) with (String c (r +:+ q)). simpl.
  destruct (decide (c = "010"%char)); [done|].
  destruct (PyStr.bracket_tail (r +:+ q)); [done|]. by rewrite IH.
Qed.

Lemma sub_brackets_fixed_prefix t q :
  PyStr.sub_brackets_from 0 (t +:+ q) = t +:+ q →
  PyStr.sub_brackets_from 0 t = t.
Proof.
  induction t as [|c t IH]; [done|].
  change (String c t +:+ q) with (String c (t +:+ q)).
  intros [Hc Hs]%sub_brackets_fixed_cons.
  apply sub_brackets_fixed_intro; [|by apply IH].
  destruct Hc as [?|Ht]; [by left|right]. by eapply bracket_tail_prefix.
Qed.

Lemma strip_sub_brackets_fixed s :
  PyStr.sub_brackets s = s → PyStr.sub_brackets (PyStr.strip s) = PyStr.strip s.
Proof.
  unfold PyStr.sub_brackets, PyStr.strip. intros Hs.
  destruct (lstrip_from_suffix 0 s) as [p Hp]. fold (PyStr.lstrip s) in Hp.
  destruct (rstrip_prefix (PyStr.lstrip s)) as (q & Hq & _).
  apply (sub_brackets_fixed_prefix _ q). rewrite <- Hq.
  apply (sub_brackets_fixed_suffix p). by rewrite <- Hp.
Qed.

(** A cleaned name is in canonical form: no bracketed note in it, no white
    space around it, and it is not the renamed entity. *)
Lemma clean_name_canonical s :
  PyStr.sub_brackets (clean_name s) = clean_name s
  ∧ PyStr.strip (clean_name s) = clean_name s
  ∧ clean_name s ≠ "West Germany".
Proof.
  unfold clean_name, rename.
  destruct (decide (PyStr.strip (PyStr.sub_brackets s) = "West Germany"));
    [by repeat split|].
  repeat split; [|apply strip_idem|done].
  apply strip_sub_brackets_fixed, sub_brackets_from_idem.
Qed.

(** X1.  Cleaning a team name is idempotent: a cleaned name is left as it
    is by lines 18-23. *)
Theorem X1_clean_name_idempotent s : clean_name (clean_name s) = clean_name s.
Proof.
  destruct (clean_name_canonical s) as (Hsub & Hstrip & Hne).
  unfold clean_name at 1. rewrite Hsub, Hstrip. unfold rename.
  by rewrite decide_False.
Qed.

End CleaningTeamNameFacts.

(** ** The normalizer on a table (lines 15-27) *)

Section NormalizerTableFacts.

Context {python_int : PyInt}.

Lemma rmap_raise {A B} (f : A → result B) l e :
  rmap f l = Raise e → ∃ x, x ∈ l ∧ f x = Raise e.
Proof.
  induction l as [|x l IH]; simpl; [done|].
  unfold mbind, result_bind. destruct (f x) as [y|e'] eqn:Hx; simpl.
  - destruct (rmap f l) as [ys|e'']; simpl; [done|].
    intros [= ->]. destruct IH as (x' & Hin & Hx'); [done|].
    exists x'. split; [by right|done].
  - intros [= ->]. exists x. split; [left|done].
Qed.

Lemma rmap_ok_all {A B} (f : A → result B) l :
  (∀ x, x ∈ l → ∃ y, f x = Ok y) → ∃ ys, rmap f l = Ok ys.
Proof.
  induction l as [|x l IH]; intros Hall; simpl; [by eexists|].
  destruct (Hall x) as [y Hy]; [left|]. destruct IH as [ys Hys].
  { intros x' Hx'. apply Hall. by right. }
  unfold mbind, result_bind. rewrite Hy. simpl. rewrite Hys. simpl. by eexists.
Qed.






(** X2.  Every team name the normalizer delivers is in canonical form: it
    has no bracketed note left, no white space around it, and it is never
    ["West Germany"]. *)
Theorem X2_normalizer_canonical_names t recs :
  team_normalizer t = Ok recs →
  ∀ rec, rec ∈ recs →
    ∃ name, Team rec = Some name
            ∧ PyStr.sub_brackets name = name
            ∧ PyStr.strip name = name
            ∧ name ≠ "West Germany".
Proof.
  intros [_ Hn%normalize_rows_ok]%team_normalizer_ok rec
         (i & Hrec)%list_elem_of_lookup_1.
  destruct (Forall2_lookup_r _ _ _ _ _ Hn Hrec) as (r & Hr & HT & _).
  apply list_elem_of_lookup_2, dropna_Team_is_Some in Hr as [[raw Hraw] _].
  exists (clean_name raw). split; [by rewrite HT, Hraw|].
  apply clean_name_canonical.
Qed.

End NormalizerTableFacts.

Lemma X2_witness :
  ∃ name, Team (TeamRecord (Some "Germany") 3 3 6 (Text "1954, 1974, 1990")
                           (Text "1966, 1982, 1986")) = Some name
          ∧ PyStr.sub_brackets name = name
          ∧ PyStr.strip name = name
          ∧ name ≠ "West Germany".
Proof.
  apply (X2_normalizer_canonical_names sample_table sample_records).
  - vm_compute. reflexivity.
  - right. left.
Defined.

Section NormalizerTableFacts2.

Context {python_int : PyInt}.


(** X4.  A row without a team name is dropped before the casts: whatever
    its cells hold, the outcome is that of the table without the row. *)
Theorem X4_row_without_team_is_ignored cols d before r after :
  raw_Team r = None →
  team_normalizer (Table cols d (before ++ r :: after))
  = team_normalizer (Table cols d (before ++ after)).
Proof.
  intros Hr. unfold team_normalizer, set_columns. simpl.
  destruct (decide (length cols = 6%nat)); [|done].
  unfold mbind, result_bind, rbind, normalize_rows, dropna_Team.
  rewrite !filter_app, filter_cons_False; [done|].
  rewrite Hr. by intros [? [=]].
Qed.

End NormalizerTableFacts2.

Lemma X4_witness :
  team_normalizer
    (Table (columns sample_table) object
       ([RawRow (Some "Brazil") (IntCell 5) (IntCell 2) (IntCell 7) NaN NaN]
        ++ RawRow None (TextCell "n/a") NaNCell (TextCell "x") (Text "?") NaN
        :: [RawRow (Some "Italy") (IntCell 4) (IntCell 2) (IntCell 6) NaN NaN]))
  = team_normalizer
      (Table (columns sample_table) object
         ([RawRow (Some "Brazil") (IntCell 5) (IntCell 2) (IntCell 7) NaN NaN]
          ++ [RawRow (Some "Italy") (IntCell 4) (IntCell 2) (IntCell 6) NaN NaN])).
Proof. apply X4_row_without_team_is_ignored. reflexivity. Defined.

(** ** Year cells (lines 31-32, 36-37) *)

Section YearCellsFacts.

Context {python_int : PyInt}.

Lemma split_comma_nonempty s : PyStr.split_comma s ≠ [].
Proof.
  destruct s as [|c s]; simpl; [done|].
  destruct (decide (c = ","%char)); [done|]. by destruct (PyStr.split_comma s).
Qed.

Lemma rmap_length {A B} (f : A → result B) l ys :
  rmap f l = Ok ys → length ys = length l.
Proof. intros H%rmap_Forall2. symmetry. by eapply Forall2_length. Qed.

Lemma parse_years_nonempty s ys : parse_years s = Ok ys → ys ≠ [].
Proof.
  intros Hlen%rmap_length ->. simpl in Hlen.
  pose proof (split_comma_nonempty s). by destruct (PyStr.split_comma s).
Qed.

Lemma parse_years_raise s e : parse_years s = Raise e → e = ValueError.
Proof.
  intros (y & _ & Hy)%rmap_raise.
  destruct (py_int (PyStr.strip y)); simpl in Hy; [done|]. by injection Hy.
Qed.

Lemma cell_years_cases c :
  match cell_years c with
  | Ok [] => no_data c
  | Ok (_ :: _) => ¬ no_data c ∧ readable c
  | Raise e => year_cell_raises c e ∧ ¬ no_data c
  end.
Proof.
  unfold cell_years, no_data, readable, year_cell_raises, malformed.
  destruct c as [s| |]; [|by left|].
  - destruct (decide (s ≠ em_dash)) as [Hs|Hs%dec_stable];
      [|right; by rewrite Hs].
    destruct (parse_years s) as [[|y ys]|e] eqn:Hp.
    + by apply parse_years_nonempty in Hp.
    + split; [intros [[=]|[= ->]]; done|]. split; [|done].
      intros (s' & [= <-] & _ & Hp'). by rewrite Hp in Hp'.
    + apply parse_years_raise in Hp as Hv. subst e.
      split; [left; split; [done|by exists s]|]. intros [[=]|[= ->]]; done.
  - split; [by right|]. by intros [[=]|[=]].
Qed.

(** X5.  A year cell contributes no year exactly when it is NaN or the
    no-data marker.  Any other cell gives at least one year or raises: the
    empty text, or a list with an empty item, is not taken as "no data". *)
Theorem X5_no_years_iff_no_data c : cell_years c = Ok [] ↔ no_data c.
Proof.
  pose proof (cell_years_cases c) as H. split.
  - intros Hc. by rewrite Hc in H.
  - intros Hn. destruct (cell_years c) as [[|y ys]|e]; [done|..].
    + by destruct H as [Hno _].
    + by destruct H as (_ & Hno).
Qed.

End YearCellsFacts.

(** ** Outcome of the expander (lines 29-44) *)

Section OutcomeExpanderFacts.

Context {python_int : PyInt}.

Lemma collect_raise rows ms ms' e :
  collect rows ms = (ms', Raise e) →
  ∃ row, row ∈ rows
         ∧ (year_cell_raises (Years_won row) e
            ∨ year_cell_raises (Years_runners_up row) e).
Proof.
  revert ms. induction rows as [|row rows IH]; intros ms; simpl; [done|].
  pose proof (cell_years_cases (Years_won row)) as Hw.
  pose proof (cell_years_cases (Years_runners_up row)) as Hr.
  destruct (cell_years (Years_won row)) as [ws|x].
  - destruct (cell_years (Years_runners_up row)) as [rs|x].
    + intros (row' & Hin & H)%IH. exists row'. split; [by right|done].
    + intros [= <- <-]. destruct Hr as [Hr _].
      exists row. split; [left|by right].
  - intros [= <- <-]. destruct Hw as [Hw _].
    exists row. split; [left|by left].
Qed.

Lemma cell_years_ok_readable c ys : cell_years c = Ok ys → readable c.
Proof.
  intros Hc. pose proof (cell_years_cases c) as H. rewrite Hc in H.
  destruct ys; [|by destruct H]. unfold readable, malformed.
  split; [intros (s & Hs & Hne & _)|intros ->]; destruct H; congruence.
Qed.

Lemma collect_ok_parsed rows ms ms' :
  collect rows ms = (ms', Ok tt) →
  ∀ row, row ∈ rows →
    readable (Years_won row) ∧ readable (Years_runners_up row).
Proof.
  revert ms. induction rows as [|row rows IH]; intros ms; simpl.
  - intros _ row Hin. by apply elem_of_nil in Hin.
  - destruct (cell_years (Years_won row)) as [ws|x] eqn:Hw; [|done].
    destruct (cell_years (Years_runners_up row)) as [rs|x] eqn:Hr; [|done].
    intros Hc row' [->|Hin]%elem_of_cons; [|by eapply IH].
    split; by eapply cell_years_ok_readable.
Qed.

Lemma readable_not_raises c e : readable c → ¬ year_cell_raises c e.
Proof. intros [Hm Hn] [[_ ?]|[_ ?]]; auto. Qed.

Lemma winner_entry_iff wc ms :
  collect wc [] = (ms, Ok tt) →
  (∃ m, m ∈ ms ∧ is_winner_entry m = true)
  ↔ ∃ row, row ∈ wc ∧ ¬ no_data (Years_won row).
Proof.
  intros Hc. split.
  - intros (m & Hm & Hw). apply (collect_ok _ _ _ Hc) in Hm
      as [Hm|(row & Hin & [(ys & y & Hys & Hy & ->)|(ys & y & _ & _ & ->)])];
      [by apply elem_of_nil in Hm| |done].
    exists row. split; [done|].
    pose proof (cell_years_cases (Years_won row)) as H. rewrite Hys in H.
    destruct ys; [by apply elem_of_nil in Hy|by destruct H].
  - intros (row & Hin & Hno).
    pose proof (cell_years_cases (Years_won row)) as H.
    destruct (cell_years (Years_won row)) as [[|y ys]|e] eqn:Hys; [done| |].
    + exists (WinnerEntry y (Team row)). split; [|done].
      apply (collect_ok _ _ _ Hc). right. exists row. split; [done|].
      left. exists (y :: ys), y. repeat split; [done|left].
    + destruct H as [Hm _].
      apply (collect_ok_parsed _ _ _ Hc) in Hin as [Hin _].
      by apply (readable_not_raises _ e) in Hin.
Qed.

Lemma runner_entry_iff wc ms :
  collect wc [] = (ms, Ok tt) →
  (∃ m, m ∈ ms ∧ is_runner_entry m = true)
  ↔ ∃ row, row ∈ wc ∧ ¬ no_data (Years_runners_up row).
Proof.
  intros Hc. split.
  - intros (m & Hm & Hw). apply (collect_ok _ _ _ Hc) in Hm
      as [Hm|(row & Hin & [(ys & y & _ & _ & ->)|(ys & y & Hys & Hy & ->)])];
      [by apply elem_of_nil in Hm|done|].
    exists row. split; [done|].
    pose proof (cell_years_cases (Years_runners_up row)) as H. rewrite Hys in H.
    destruct ys; [by apply elem_of_nil in Hy|by destruct H].
  - intros (row & Hin & Hno).
    pose proof (cell_years_cases (Years_runners_up row)) as H.
    destruct (cell_years (Years_runners_up row)) as [[|y ys]|e] eqn:Hys; [done| |].
    + exists (RunnerEntry y (Team row)). split; [|done].
      apply (collect_ok _ _ _ Hc). right. exists row. split; [done|].
      right. exists (y :: ys), y. repeat split; [done|left].
    + destruct H as [Hm _].
      apply (collect_ok_parsed _ _ _ Hc) in Hin as [_ Hin].
      by apply (readable_not_raises _ e) in Hin.
Qed.

Lemma select_winners_raise ms e :
  select_winners (DataFrame ms) = Raise e →
  e = KeyError ∧ ∀ m, m ∈ ms → is_winner_entry m = false.
Proof.
  unfold select_winners, require_columns, mbind, result_bind.
  destruct (decide (Forall _ ["Winner"])) as [HW|HW]; simpl.
  - destruct (decide (Forall _ ["Year"; "Winner"])) as [|HY]; simpl; [done|].
    destruct HY. apply Forall_cons_1 in HW as [HW _].
    repeat constructor; [|done].
    apply DataFrame_columns in HW as (m & Hm & _). apply DataFrame_columns.
    exists m. split; [done|]. destruct m; left.
  - intros [= <-]. split; [done|]. intros [y t|y t] Hm; [|done].
    destruct HW. repeat constructor. apply DataFrame_columns.
    exists (WinnerEntry y t). split; [done|]. right; left.
Qed.

Lemma select_runners_raise ms e :
  select_runners (DataFrame ms) = Raise e →
  e = KeyError ∧ ∀ m, m ∈ ms → is_runner_entry m = false.
Proof.
  unfold select_runners, require_columns, mbind, result_bind.
  destruct (decide (Forall _ ["Runner-up"])) as [HW|HW]; simpl.
  - destruct (decide (Forall _ ["Year"; "Runner-up"])) as [|HY]; simpl; [done|].
    destruct HY. apply Forall_cons_1 in HW as [HW _].
    repeat constructor; [|done].
    apply DataFrame_columns in HW as (m & Hm & _). apply DataFrame_columns.
    exists m. split; [done|]. destruct m; left.
  - intros [= <-]. split; [done|]. intros [y t|y t] Hm; [done|].
    destruct HW. repeat constructor. apply DataFrame_columns.
    exists (RunnerEntry y t). split; [done|]. right; left.
Qed.

Lemma select_winners_ok_entry ms ws :
  select_winners (DataFrame ms) = Ok ws → ∃ m, m ∈ ms ∧ is_winner_entry m = true.
Proof.
  unfold select_winners, require_columns, mbind, result_bind.
  destruct (decide (Forall _ ["Winner"])) as [HW|HW]; simpl; [|done].
  intros _. apply Forall_cons_1 in HW as [HW _].
  apply DataFrame_columns in HW as ([y t|y t] & Hm & Hk); [by eexists|].
  simpl in Hk. by repeat (apply elem_of_cons in Hk as [?|Hk]; [done|]);
    apply elem_of_nil in Hk.
Qed.

Lemma select_runners_ok_entry ms rs :
  select_runners (DataFrame ms) = Ok rs → ∃ m, m ∈ ms ∧ is_runner_entry m = true.
Proof.
  unfold select_runners, require_columns, mbind, result_bind.
  destruct (decide (Forall _ ["Runner-up"])) as [HW|HW]; simpl; [|done].
  intros _. apply Forall_cons_1 in HW as [HW _].
  apply DataFrame_columns in HW as ([y t|y t] & Hm & Hk); [|by eexists].
  simpl in Hk. by repeat (apply elem_of_cons in Hk as [?|Hk]; [done|]);
    apply elem_of_nil in Hk.
Qed.

(** X6.  What decides the outcome of the expander, for records whose year
    cells are text, NaN or numbers.  It delivers a table when the loop gets
    through every year cell (no cell is a number and [int] reads every item
    of every list), some record has a [Years_won] cell with data and some
    record has a [Years_runners_up] cell with data.  A list with an item
    [int] does not read gives [ValueError] and a numeric cell gives
    [AttributeError]; when the loop gets through, records none of which has
    years won, or none of which has runner-up years (the empty table among
    them), give [KeyError]. *)
Theorem X6_expander_outcome e wc :
  match finals_from e wc with
  | Ok rows =>
      (∀ row, row ∈ wc →
         readable (Years_won row) ∧ readable (Years_runners_up row))
      ∧ (∃ row, row ∈ wc ∧ ¬ no_data (Years_won row))
      ∧ (∃ row, row ∈ wc ∧ ¬ no_data (Years_runners_up row))
  | Raise x =>
      (∃ row, row ∈ wc
              ∧ (year_cell_raises (Years_won row) x
                 ∨ year_cell_raises (Years_runners_up row) x))
      ∨ (x = KeyError
         ∧ (∀ row, row ∈ wc →
              readable (Years_won row) ∧ readable (Years_runners_up row))
         ∧ ((∀ row, row ∈ wc → no_data (Years_won row))
            ∨ (∀ row, row ∈ wc → no_data (Years_runners_up row))))
  end.
Proof.
  unfold finals_from. rewrite finals_expander_spec.
  destruct (collect wc []) as [ms [[]|x]] eqn:Hc;
    [|left; by eapply collect_raise].
  pose proof (collect_ok_parsed _ _ _ Hc) as Hparsed.
  unfold build_finals.
  destruct (select_winners (DataFrame ms)) as [ws|x] eqn:Hws.
  - destruct (select_runners (DataFrame ms)) as [rs|x] eqn:Hrs; simpl.
    + split; [done|]. split.
      * by apply (winner_entry_iff _ _ Hc), (select_winners_ok_entry _ ws).
      * by apply (runner_entry_iff _ _ Hc), (select_runners_ok_entry _ rs).
    + right. apply select_runners_raise in Hrs as [-> Hno].
      repeat split; [by apply Hparsed..|]. right. intros row Hin.
      destruct (decide (no_data (Years_runners_up row))) as [|Hd]; [done|].
      destruct (proj2 (runner_entry_iff _ _ Hc)) as (m & Hm & Hr); [by eexists|].
      by rewrite (Hno _ Hm) in Hr.
  - right. apply select_winners_raise in Hws as [-> Hno].
    repeat split; [by apply Hparsed..|]. left. intros row Hin.
    destruct (decide (no_data (Years_won row))) as [|Hd]; [done|].
    destruct (proj2 (winner_entry_iff _ _ Hc)) as (m & Hm & Hr); [by eexists|].
    by rewrite (Hno _ Hm) in Hr.
Qed.

(** X7.  The rows of [finals_df], by membership: a row is in the table
    exactly when its (year, winner) pair is listed by a record as won and
    its runner-up is a team a record lists as runner-up of that year, or is
    NaN and no record lists a runner-up of that year. *)
Theorem X7_finals_membership e wc rows :
  finals_from e wc = Ok rows →
  ∀ r, r ∈ rows ↔
    won_by wc (Year r) (Winner r) ∧
    match Runner_up r with
    | Some t => runner_up_by wc (Year r) t
    | None => ∀ t, ¬ runner_up_by wc (Year r) t
    end.
Proof. apply finals_rows. Qed.

End OutcomeExpanderFacts.

Lemma X7_witness :
  FinalRow 1950 "Uruguay" None
    ∈ [ FinalRow 1930 "Uruguay" (Some "Argentina"); FinalRow 1950 "Uruguay" None ]
  ↔ won_by [uruguay; TeamRecord (Some "Argentina") 0 1 1 NaN (Text "1930")]
           1950 "Uruguay"
    ∧ ∀ t, ¬ runner_up_by
               [uruguay; TeamRecord (Some "Argentina") 0 1 1 NaN (Text "1930")]
               1950 t.
Proof.
  refine (X7_finals_membership unbound
            [uruguay; TeamRecord (Some "Argentina") 0 1 1 NaN (Text "1930")]
            [ FinalRow 1930 "Uruguay" (Some "Argentina");
              FinalRow 1950 "Uruguay" None ]
            _ (FinalRow 1950 "Uruguay" None)).
  vm_compute. reflexivity.
Defined.

Section OutcomeExpanderFacts2.

Context {python_int : PyInt}.

Lemma join_row_nonempty rs w :
  ∃ r, r ∈ join_row rs w ∧ Year r = w.1 ∧ Winner r = w.2.
Proof.
  unfold join_row. destruct (filter _ rs) as [|h hits].
  - eexists. split; [left|done].
  - eexists. split; [left|done].
Qed.

(** X8.  No win is lost and none is invented: the (year, winner) pairs of
    the rows of [finals_df] are exactly the pairs the records list as won,
    with or without a runner-up on record. *)
Theorem X8_wins_are_the_rows e wc rows :
  finals_from e wc = Ok rows →
  ∀ y t, (∃ r, r ∈ rows ∧ Year r = y ∧ Winner r = t) ↔ won_by wc y t.
Proof.
  intros Hrun y t. split.
  - intros (r & Hr & <- & <-). by apply (finals_rows _ _ _ Hrun) in Hr as [? _].
  - apply finals_from_ok in Hrun as (ms & ws & rs & Hc & Hws & Hrs & ->).
    intros Hw%(won_by_entry _ _ _ _ Hc)%(select_winners_ok _ _ Hws).
    destruct (join_row_nonempty rs (y, t)) as (r & Hr & Hy & Ht).
    exists r. split; [|done]. apply elem_of_drop_duplicates.
    unfold merge_left. apply list_elem_of_bind. by exists (y, t).
Qed.

End OutcomeExpanderFacts2.

Lemma X8_witness :
  (∃ r, r ∈ [ FinalRow 1930 "Uruguay" (Some "Argentina");
              FinalRow 1950 "Uruguay" None ]
        ∧ Year r = 1950 ∧ Winner r = "Uruguay")
  ↔ won_by [uruguay; TeamRecord (Some "Argentina") 0 1 1 NaN (Text "1930")]
           1950 "Uruguay".
Proof.
  refine (X8_wins_are_the_rows unbound
            [uruguay; TeamRecord (Some "Argentina") 0 1 1 NaN (Text "1930")]
            [ FinalRow 1930 "Uruguay" (Some "Argentina");
              FinalRow 1950 "Uruguay" None ]
            _ 1950 "Uruguay").
  vm_compute. reflexivity.
Defined.

Section OutcomeExpanderFacts3.

Context {python_int : PyInt}.

(** X9.  What a run leaves in the globals.  After a run that goes through,
    all five globals are bound and belong together: the frame is built from
    [matches] and [finals_df] from [winners] and [runners].  A run that
    raises has rebound [matches] but leaves [finals_df] as it was. *)
Theorem X9_globals_after_run wc e :
  match finals_expander wc e with
  | (e', Ok _) =>
      ∃ ms ws rs,
        matches e' = Some ms
        ∧ matches_df e' = Some (DataFrame ms)
        ∧ select_winners (DataFrame ms) = Ok ws ∧ winners e' = Some ws
        ∧ select_runners (DataFrame ms) = Ok rs ∧ runners e' = Some rs
        ∧ finals_df e' = Some (drop_duplicates (merge_left ws rs))
  | (e', Raise _) => is_Some (matches e') ∧ finals_df e' = finals_df e
  end.
Proof.
  rewrite finals_expander_spec.
  destruct (collect wc []) as [ms [[]|x]]; [|by split; [eexists|]].
  unfold build_finals.
  destruct (select_winners (DataFrame ms)) as [ws|x] eqn:Hws;
    [|by split; [eexists|]].
  destruct (select_runners (DataFrame ms)) as [rs|x] eqn:Hrs;
    [|by split; [eexists|]].
  by exists ms, ws, rs.
Qed.

Lemma won_by_has_row e wc rows y t :
  finals_from e wc = Ok rows → won_by wc y t →
  ∃ r, r ∈ rows ∧ Year r = y ∧ Winner r = t.
Proof.
  intros (ms & ws & rs & Hc & Hws & Hrs & ->)%finals_from_ok
         Hw%(won_by_entry _ _ _ _ Hc)%(select_winners_ok _ _ Hws).
  destruct (join_row_nonempty rs (y, t)) as (r & Hr & Hy & Ht).
  exists r. split; [|done]. apply elem_of_drop_duplicates.
  unfold merge_left. apply list_elem_of_bind. by exists (y, t).
Qed.

Lemma finals_from_ok_lists_a_win e wc rows :
  finals_from e wc = Ok rows →
  ∃ row y, row ∈ wc ∧ (∃ ys, cell_years (Years_won row) = Ok ys ∧ y ∈ ys).
Proof.
  intros (ms & ws & rs & Hc & Hws & _)%finals_from_ok.
  apply select_winners_ok_entry in Hws as (m & Hm & Hw).
  apply (collect_ok _ _ _ Hc) in Hm
    as [Hm|(row & Hin & [(ys & y & Hys & Hy & ->)|(ys & y & _ & _ & ->)])];
    [by apply elem_of_nil in Hm| |done].
  exists row, y. split; [done|]. by exists ys.
Qed.

End OutcomeExpanderFacts3.

(** ** The year dropdown and its callback (lines 197-198, 246-252) *)

Local Instance flip_le_transitive : Transitive (flip Z.le).
Proof. intros x y z. unfold flip. lia. Qed.

Local Instance flip_le_total : Total (flip Z.le).
Proof. intros x y. unfold flip. lia. Qed.

Section YearDropdownCallbackFacts.

Context {python_int : PyInt}.

Lemma sorted_reverse_Permutation l : sorted_reverse l ≡ₚ l.
Proof. apply merge_sort_Permutation. Qed.

Lemma sorted_reverse_sorted l : StronglySorted (flip Z.le) (sorted_reverse l).
Proof. apply StronglySorted_merge_sort; apply _. Qed.

Lemma StronglySorted_strict l :
  StronglySorted (flip Z.le) l → NoDup l → StronglySorted (flip Z.lt) l.
Proof.
  induction 1 as [|x l Hl IH Hx]; intros Hnd; constructor.
  - apply IH. by apply NoDup_cons in Hnd as [_ ?].
  - apply NoDup_cons in Hnd as [Hnotin _].
    apply Forall_forall. intros y Hy.
    rewrite Forall_forall in Hx. specialize (Hx y Hy). unfold flip in *.
    assert (y ≠ x) by (by intros ->). lia.
Qed.

Lemma year_options_values finals :
  value <$> year_options finals = sorted_reverse (unique_years finals).
Proof.
  unfold year_options. rewrite <- list_fmap_compose.
  rewrite <- (list_fmap_id (sorted_reverse _)) at 2. by apply list_fmap_ext.
Qed.

Lemma elem_of_year_values finals y :
  y ∈ value <$> year_options finals ↔ ∃ r, r ∈ finals ∧ Year r = y.
Proof.
  rewrite year_options_values, sorted_reverse_Permutation.
  unfold unique_years. rewrite elem_of_drop_duplicates, list_elem_of_fmap.
  split; intros (r & ? & ?); by exists r.
Qed.

Lemma filter_first {A} (P : A → Prop) `{∀ x, Decision (P x)} l x rest :
  filter P l = x :: rest →
  ∃ before after, l = before ++ x :: after ∧ P x ∧ ∀ z, z ∈ before → ¬ P z.
Proof.
  induction l as [|a l IH]; [done|].
  rewrite filter_cons. destruct (decide (P a)) as [Ha|Ha].
  - intros [= -> _]. exists [], l. repeat split; [done|].
    by intros z ?%elem_of_nil.
  - intros (before & after & -> & Hx & Hb)%IH.
    exists (a :: before), after. repeat split; [done|].
    intros z [->|?]%elem_of_cons; auto.
Qed.

Lemma update_result_cases finals y :
  match update_result finals y with
  | Ok out =>
      ∃ before r after,
        finals = before ++ r :: after ∧ Year r = y
        ∧ (∀ r', r' ∈ before → Year r' ≠ y)
        ∧ out = result_view y r
  | Raise x => x = IndexError ∧ ∀ r, r ∈ finals → Year r ≠ y
  end.
Proof.
  unfold update_result.
  destruct (filter (λ r, Year r = y) finals) as [|r rest] eqn:Hf.
  - split; [done|]. intros r Hr Hy.
    by apply (filter_nil_not_elem_of _ _ r Hf) in Hr.
  - apply filter_first in Hf as (before & after & -> & Hy & Hb).
    by exists before, r, after.
Qed.

Lemma foldl_max_spec y ys :
  foldl Z.max y ys ∈ y :: ys ∧ ∀ x, x ∈ y :: ys → x ≤ foldl Z.max y ys.
Proof.
  revert y. induction ys as [|z ys IH]; intros y; simpl.
  - split; [left|]. by intros x ->%list_elem_of_singleton.
  - destruct (IH (Z.max y z)) as [Hin Hub]. split.
    + apply elem_of_cons in Hin as [Hin|Hin]; [|by do 2 right].
      rewrite Hin. destruct (Z.max_spec y z) as [[_ ->]|[_ ->]];
        [right; left|left].
    + intros x Hx. assert (Z.max y z ≤ foldl Z.max (Z.max y z) ys) as Hm
        by (apply Hub; left).
      apply elem_of_cons in Hx as [->|[->|Hx]%elem_of_cons];
        [lia|lia|]. apply Hub. by right.
Qed.

Lemma year_initial_cases finals :
  match year_initial finals with
  | Some y =>
      head (value <$> year_options finals) = Some y
      ∧ (∃ r, r ∈ finals ∧ Year r = y)
      ∧ ∀ r, r ∈ finals → Year r ≤ y
  | None => finals = []
  end.
Proof.
  unfold year_initial. destruct (Year <$> finals) as [|y ys] eqn:Hys;
    [by apply fmap_nil_inv in Hys|].
  destruct (foldl_max_spec y ys) as [Hin Hub]. rewrite <- Hys in Hin, Hub.
  assert (∃ r, r ∈ finals ∧ Year r = foldl Z.max y ys) as Hrow.
  { apply list_elem_of_fmap in Hin as (r & ? & ?). by exists r. }
  assert (∀ r, r ∈ finals → Year r ≤ foldl Z.max y ys) as Hall.
  { intros r Hr. by apply Hub, list_elem_of_fmap_2. }
  split; [|done].
  pose proof (proj2 (elem_of_year_values finals _) Hrow) as Hm.
  rewrite year_options_values in *.
  pose proof (sorted_reverse_sorted (unique_years finals)) as Hs.
  destruct (sorted_reverse (unique_years finals)) as [|h l] eqn:Hl;
    [by apply elem_of_nil in Hm|].
  simpl. f_equal. apply StronglySorted_inv in Hs as [_ Hh].
  assert (h ≤ foldl Z.max y ys) as Hle.
  { assert (h ∈ value <$> year_options finals) as Hhin
      by (rewrite year_options_values, Hl; left).
    apply elem_of_year_values in Hhin as (r & Hr & <-). by apply Hall. }
  apply elem_of_cons in Hm as [->|Hm]; [done|].
  rewrite Forall_forall in Hh. specialize (Hh _ Hm). unfold flip in Hh. lia.
Qed.

(** X10.  The options of the year dropdown are the years of [finals_df],
    each once, from the latest to the earliest, labelled with their decimal
    text. *)
Theorem X10_year_options finals :
  StronglySorted (flip Z.lt) (value <$> year_options finals)
  ∧ (∀ y, y ∈ value <$> year_options finals ↔ ∃ r, r ∈ finals ∧ Year r = y)
  ∧ (∀ o, o ∈ year_options finals → label o = pretty (value o)).
Proof.
  split; [|split].
  - rewrite year_options_values. apply StronglySorted_strict.
    + apply sorted_reverse_sorted.
    + rewrite sorted_reverse_Permutation. apply NoDup_drop_duplicates.
  - apply elem_of_year_values.
  - unfold year_options. by intros o (y & -> & _)%list_elem_of_fmap.
Qed.

(** X11.  [update_result] goes through exactly for the years the dropdown
    offers.  It then shows the first row of that year in [finals_df] (later
    rows of the same year are never shown), with ["nan"] for a missing
    runner-up; for any other year it raises [IndexError]. *)
Theorem X11_update_result_on_options finals y :
  match update_result finals y with
  | Ok out =>
      y ∈ value <$> year_options finals
      ∧ ∃ before r after,
          finals = before ++ r :: after ∧ Year r = y
          ∧ (∀ r', r' ∈ before → Year r' ≠ y)
          ∧ out = [ H3 (pretty y +:+ " World Cup Final");
                    P ("Winner: " +:+ Winner r) "gold";
                    P ("Runner-up: " +:+ from_option id "nan" (Runner_up r))
                      "silver" ]
  | Raise x => x = IndexError ∧ y ∉ value <$> year_options finals
  end.
Proof.
  pose proof (update_result_cases finals y) as H.
  destruct (update_result finals y) as [out|x].
  - destruct H as (before & r & after & -> & Hy & Hb & ->). split.
    + apply elem_of_year_values. exists r. split; [|done].
      apply elem_of_app. right. left.
    + by exists before, r, after.
  - destruct H as [-> Hno]. split; [done|].
    intros (r & Hr & Hy)%elem_of_year_values. by apply Hno in Hr.
Qed.

(** X12.  The year the dropdown starts with is the latest year of
    [finals_df]: it is the first option, and the callback goes through on
    it.  For an empty [finals_df] there is no start value and no option. *)
Theorem X12_year_initial finals :
  match year_initial finals with
  | Some y =>
      head (value <$> year_options finals) = Some y
      ∧ (∀ r, r ∈ finals → Year r ≤ y)
      ∧ ∃ r, r ∈ finals ∧ Year r = y
             ∧ update_result finals y
               = Ok [ H3 (pretty y +:+ " World Cup Final");
                      P ("Winner: " +:+ Winner r) "gold";
                      P ("Runner-up: " +:+ from_option id "nan" (Runner_up r))
                        "silver" ]
  | None => finals = [] ∧ year_options finals = []
  end.
Proof.
  pose proof (year_initial_cases finals) as H.
  destruct (year_initial finals) as [y|]; [|by subst].
  destruct H as (Hhead & Hrow & Hub). repeat split; [done..|].
  pose proof (update_result_cases finals y) as Hu.
  destruct (update_result finals y) as [out|x].
  - destruct Hu as (before & r & after & -> & Hy & _ & ->).
    exists r. repeat split; [|done]. apply elem_of_app. right. left.
  - destruct Hu as [_ Hno]. destruct Hrow as (r & Hr & Hy). by apply Hno in Hr.
Qed.

End YearDropdownCallbackFacts.

(** ** The country dropdown and its callback (lines 173-174, 215-240) *)

Section CountryDropdownCallbackFacts.

Context {python_int : PyInt}.

Lemma cell_eqb_true c sel :
  cell_eqb c sel = true ↔ ∃ t, c = Some t ∧ sel = Some t.
Proof.
  destruct c as [a|], sel as [b|]; simpl;
    [|split; [done|by intros (? & ? & ?)]..].
  rewrite bool_decide_eq_true. split; [intros ->; by exists b|].
  by intros (t & [= ->] & [= ->]).
Qed.

Lemma elem_of_bars wc sel b :
  b ∈ bars (update_graph (add_codes wc) sel)
  ↔ ∃ r t, r ∈ wc ∧ Team r = Some t ∧ sel = Some t ∧ b = (Some t, Wins r).
Proof.
  unfold update_graph; simpl. rewrite list_elem_of_fmap. split.
  - intros (c & -> & [Heq Hc]%list_elem_of_filter).
    apply Is_true_true, cell_eqb_true in Heq as (t & Ht & ->).
    apply elem_of_add_codes in Hc as [Hc _].
    exists (record c), t. by rewrite Ht.
  - intros (r & t & Hr & Ht & -> & ->).
    exists (Coded r (map_code (Team r))). simpl. split; [by rewrite Ht|].
    apply list_elem_of_filter. split.
    + apply Is_true_true, cell_eqb_true. by exists t.
    + by apply elem_of_add_codes.
Qed.

(** X13.  The bar chart has a bar for every record of the selected team and
    no other: each bar stands at the team's name with the [Wins] of one of
    its records.  So every team the country dropdown offers gets at least
    one bar, while a selection that names no team of the table (an unknown
    name, or [None] for a cleared dropdown) gets an empty chart with its
    titles; no exception is involved. *)
Theorem X13_update_graph_bars wc sel :
  (∀ b, b ∈ bars (update_graph (add_codes wc) sel)
        ↔ ∃ r t, r ∈ wc ∧ Team r = Some t ∧ sel = Some t ∧ b = (Some t, Wins r))
  ∧ length (bars (update_graph (add_codes wc) sel))
    = length (filter (λ r, cell_eqb (Team r) sel) wc)
  ∧ (∀ o, o ∈ country_options wc → is_Some (value o) →
          bars (update_graph (add_codes wc) (value o)) ≠ [])
  ∧ ((∀ r, r ∈ wc → Team r ≠ sel) ∨ sel = None →
     update_graph (add_codes wc) sel
     = BarFigure [] (format_selected sel +:+ " World Cup History")
         ("Number of times " +:+ format_selected sel +:+ " won the World Cup")).
Proof.
  split; [apply elem_of_bars|]. split; [|split].
  - unfold update_graph, add_codes; simpl. rewrite length_fmap.
    induction wc as [|r wc IH]; [done|].
    rewrite fmap_cons, !filter_cons. simpl.
    destruct (decide (cell_eqb (Team r) sel)); simpl; by rewrite IH.
  - unfold country_options. intros o (r & -> & Hr)%list_elem_of_fmap [t Ht] Hnil.
    cbn [value] in Hnil, Ht.
    assert ((Some t, Wins r) ∈ bars (update_graph (add_codes wc) (Team r))) as Hb
      by (apply elem_of_bars; by exists r, t).
    rewrite Hnil in Hb. by apply elem_of_nil in Hb.
  - intros Hno.
    assert (bars (update_graph (add_codes wc) sel) = []) as Hb.
    { apply elem_of_nil_inv. intros b (r & t & Hr & Ht & -> & _)%elem_of_bars.
      destruct Hno as [Hno|?]; [|done]. by apply (Hno r). }
    unfold update_graph in *. simpl in *. by rewrite Hb.
Qed.

End CountryDropdownCallbackFacts.

(** ** The list of winning countries (lines 108-111) *)

Local Instance Wins_ge_transitive : Transitive Wins_ge.
Proof. intros a b c. unfold Wins_ge. lia. Qed.

Local Instance Wins_ge_total : Total Wins_ge.
Proof. intros a b. unfold Wins_ge. lia. Qed.

Section WinningCountriesSorted.

(** What [sort_values('Wins', ascending=False)] guarantees of its result:
    the same rows, with no row having more [Wins] than the row before it. *)
Variable sort_values_Wins_desc : list coded_record → list coded_record.
Hypothesis sort_values_Permutation : ∀ l, sort_values_Wins_desc l ≡ₚ l.
Hypothesis sort_values_Sorted : ∀ l, Sorted Wins_ge (sort_values_Wins_desc l).

(** X14.  The list of winning countries has one item per record with
    [Wins > 0], and no item for a record without a win; the items come by
    falling [Wins], whichever way the sort arranges equal counts. *)
Theorem X14_winning_countries wc :
  ∃ rows,
    winning_countries_list sort_values_Wins_desc wc = winning_country_item <$> rows
    ∧ rows ≡ₚ winnersWithCodes wc
    ∧ StronglySorted Wins_ge rows
    ∧ (∀ c, c ∈ rows → 0 < Wins (record c) ∧ record c ∈ wc)
    ∧ length (winning_countries_list sort_values_Wins_desc wc)
      = length (filter (λ r, 0 < Wins r) wc).
Proof.
  exists (sort_values_Wins_desc (winnersWithCodes wc)).
  split; [done|]. split; [apply sort_values_Permutation|].
  split; [apply Sorted_StronglySorted; [apply _|apply sort_values_Sorted]|].
  split.
  - intros c Hc. rewrite sort_values_Permutation in Hc.
    unfold winnersWithCodes in Hc.
    apply list_elem_of_filter in Hc as [Hw Hc].
    by apply elem_of_add_codes in Hc as [? _].
  - unfold winning_countries_list.
    rewrite length_fmap, sort_values_Permutation.
    unfold winnersWithCodes, add_codes.
    induction wc as [|r wc IH]; [done|].
    rewrite fmap_cons, !filter_cons. simpl.
    destruct (decide (0 < Wins r)); simpl; by rewrite IH.
Qed.

End WinningCountriesSorted.

Lemma X14_witness :
  ∃ rows,
    winning_countries_list merge_sort_Wins_desc sample_records
    = winning_country_item <$> rows
    ∧ rows ≡ₚ winnersWithCodes sample_records
    ∧ StronglySorted Wins_ge rows
    ∧ (∀ c, c ∈ rows → 0 < Wins (record c) ∧ record c ∈ sample_records)
    ∧ length (winning_countries_list merge_sort_Wins_desc sample_records)
      = length (filter (λ r, 0 < Wins r) sample_records).
Proof.
  apply X14_winning_countries.
  - intros l. apply merge_sort_Permutation.
  - intros l. apply Sorted_merge_sort. apply _.
Defined.

Example winning_countries_sample :
  winning_countries_list merge_sort_Wins_desc sample_records
  = ["Brazil - 5 wins"; "Germany - 3 wins"].
Proof. vm_compute. reflexivity. Qed.

(** ** From the tables to the first view (lines 8-44, 197-198, 246-252) *)

Section TablesFirstViewFacts.

Context {python_int : PyInt}.

Lemma team_normalizer_names t recs rec :
  team_normalizer t = Ok recs → rec ∈ recs →
  ∃ raw, Team rec = Some (clean_name raw).
Proof.
  intros [_ Hn%normalize_rows_ok]%team_normalizer_ok
         (i & Hrec)%list_elem_of_lookup_1.
  destruct (Forall2_lookup_r _ _ _ _ _ Hn Hrec) as (r & Hr & HT & _).
  apply list_elem_of_lookup_2, dropna_Team_is_Some in Hr as [[raw Hraw] _].
  exists raw. by rewrite HT, Hraw.
Qed.

Lemma startup_ok str tables wc finals :
  startup str tables = Ok (wc, finals) →
  ∃ t, table_selector str tables = Ok t
       ∧ team_normalizer t = Ok wc
       ∧ expand_finals wc = Ok finals.
Proof.
  unfold startup, mbind, result_bind.
  destruct (table_selector str tables) as [t|]; simpl; [|done].
  destruct (team_normalizer t) as [wc'|] eqn:Hn; simpl; [|done].
  destruct (expand_finals wc') as [finals'|] eqn:He; simpl; [|done].
  intros [= <- <-]. by exists t.
Qed.

(** X15.  When start-up goes through, the first view is served: the table
    came from the first matching table, [finals_df] is not empty, the year
    dropdown has a start value and [update_result] goes through on it.  The
    teams of [finals_df] are cleaned names of [wcWinnerData]; none of them is
    ["West Germany"]. *)
Theorem X15_startup_serves_first_view str tables wc finals :
  startup str tables = Ok (wc, finals) →
  (∃ t before after,
     tables = before ++ t :: after ∧ is_match str t = true
     ∧ Forall (λ u, is_match str u = false) before
     ∧ team_normalizer t = Ok wc)
  ∧ expand_finals wc = Ok finals
  ∧ (∃ y r, year_initial finals = Some y ∧ r ∈ finals ∧ Year r = y
            ∧ update_result finals y = Ok (result_view y r))
  ∧ ∀ r, r ∈ finals →
      (∃ rec, rec ∈ wc ∧ Team rec = Some (Winner r))
      ∧ clean_name (Winner r) = Winner r
      ∧ Winner r ≠ "West Germany"
      ∧ Runner_up r ≠ Some "West Germany".
Proof.
  intros (t & Hsel & Hnorm & Hexp)%startup_ok. split; [|split; [done|split]].
  - unfold table_selector in Hsel.
    pose proof (select_loop_first str tables) as H.
    destruct (select_loop str tables) as [t'|]; [|done].
    injection Hsel as ->. destruct H as (before & after & ? & ? & ?).
    by exists t, before, after.
  - destruct (finals_from_ok_lists_a_win _ _ _ Hexp)
      as (row & y & Hrow & ys & Hys & Hy).
    destruct (team_normalizer_names _ _ _ Hnorm Hrow) as [raw Hraw].
    destruct (won_by_has_row _ _ _ y (clean_name raw) Hexp) as (r0 & Hr0 & _);
      [by exists row, ys|].
    pose proof (year_initial_cases finals) as Hi.
    destruct (year_initial finals) as [y0|];
      [|subst; by apply elem_of_nil in Hr0].
    destruct Hi as (_ & (r1 & Hr1 & Hy1) & _).
    pose proof (update_result_cases finals y0) as Hu.
    destruct (update_result finals y0) as [out|x] eqn:Hres.
    + destruct Hu as (before & r & after & Hf & Hyr & _ & ->).
      exists y0, r. split; [done|]. split; [|done].
      rewrite Hf. apply elem_of_app. right. left.
    + destruct Hu as [_ Hno]. by apply Hno in Hr1.
  - intros r Hr. apply (finals_rows _ _ _ Hexp) in Hr as [Hw Hru].
    destruct Hw as (row & ys & Hrow & HT & _).
    destruct (team_normalizer_names _ _ _ Hnorm Hrow) as [raw Hraw].
    assert (Winner r = clean_name raw) as -> by congruence.
    destruct (clean_name_canonical raw) as (Hsub & Hstrip & Hne).
    split; [by exists row|]. split.
    { unfold clean_name at 1. rewrite Hsub, Hstrip. unfold rename.
      by rewrite decide_False. }
    split; [done|].
    destruct (Runner_up r) as [u|]; [|done].
    destruct Hru as (row' & ys' & Hrow' & HT' & _).
    destruct (team_normalizer_names _ _ _ Hnorm Hrow') as [raw' Hraw'].
    assert (u = clean_name raw') as -> by congruence.
    intros [= Heq]. by apply (clean_name_canonical raw').
Qed.

End TablesFirstViewFacts.

Lemma X15_witness :
  ∃ wc finals,
    startup index_repr [Table ["Year"; "Winners"] object []; sample_table]
    = Ok (wc, finals)
    ∧ expand_finals wc = Ok finals
    ∧ (∃ y r, year_initial finals = Some y ∧ r ∈ finals ∧ Year r = y
              ∧ update_result finals y = Ok (result_view y r))
    ∧ ∀ r, r ∈ finals →
        (∃ rec, rec ∈ wc ∧ Team rec = Some (Winner r))
        ∧ clean_name (Winner r) = Winner r
        ∧ Winner r ≠ "West Germany"
        ∧ Runner_up r ≠ Some "West Germany".
Proof.
  eexists _, _. split; [vm_compute; reflexivity|].
  eapply proj2, (X15_startup_serves_first_view index_repr
                   [Table ["Year"; "Winners"] object []; sample_table]).
  vm_compute. reflexivity.
Defined.

(** ** The selector finds the first match (lines 10-13) *)

Section SelectorFindsFirstMatchFacts.

Context {python_int : PyInt}.

(** X16.  A matching table that has no matching table before it is the one
    selected, whatever comes after it. *)
Theorem X16_first_match_is_selected str before t after :
  is_match str t = true →
  Forall (λ u, is_match str u = false) before →
  table_selector str (before ++ t :: after) = Ok t.
Proof.
  intros Ht Hb. unfold table_selector.
  induction Hb as [|u before Hu _ IH]; simpl; [by rewrite Ht|].
  by rewrite Hu.
Qed.

End SelectorFindsFirstMatchFacts.

Lemma X16_witness :
  table_selector index_repr
    ([Table ["Year"; "Winners"] object []] ++ sample_table :: [Table ["Team"; "Winners"] object []])
  = Ok sample_table.
Proof.
  apply X16_first_match_is_selected; [vm_compute; reflexivity|].
  repeat constructor.
Defined.

(** ** The order of the rows of [finals_df] (lines 30-44) *)

Section OrderRowsFinalsDfFacts.

Context {python_int : PyInt}.

Lemma filter_filter_comm {A} (P Q : A → Prop)
    `{∀ x, Decision (P x)} `{∀ x, Decision (Q x)} (l : list A) :
  filter P (filter Q l) = filter Q (filter P l).
Proof.
  induction l as [|x l IH]; [done|]. rewrite !filter_cons.
  destruct (decide (Q x)), (decide (P x)); rewrite ?filter_cons;
    repeat case_decide; try done; by rewrite IH.
Qed.

Lemma filter_filter_absorb {A} (P Q : A → Prop)
    `{∀ x, Decision (P x)} `{∀ x, Decision (Q x)} (l : list A) :
  (∀ x, P x → Q x) → filter P (filter Q l) = filter P l.
Proof.
  intros HPQ. induction l as [|x l IH]; [done|]. rewrite !filter_cons.
  destruct (decide (Q x)), (decide (P x)); rewrite ?filter_cons;
    repeat case_decide; try done; try (by rewrite IH). by destruct n; auto.
Qed.

Lemma drop_duplicates_filter {A} `{EqDecision A} (P : A → Prop)
    `{∀ x, Decision (P x)} (l : list A) :
  drop_duplicates (filter P l) = filter P (drop_duplicates l).
Proof.
  induction l as [|x l IH]; [done|]. simpl. rewrite !filter_cons.
  destruct (decide (P x)) as [Hx|Hx]; simpl.
  - by rewrite IH, filter_filter_comm.
  - rewrite IH. symmetry. apply filter_filter_absorb. by intros y Hy ->.
Qed.

Lemma filter_fmap_filter {A B} `{EqDecision A} `{EqDecision B}
    (f : A → B) (x : A) (l : list A) :
  filter (λ z, z ≠ f x) (f <$> filter (λ y, y ≠ x) l)
  = filter (λ z, z ≠ f x) (f <$> l).
Proof.
  induction l as [|a l IH]; [done|]. rewrite filter_cons.
  destruct (decide (a ≠ x)) as [Ha|Ha%dec_stable].
  - rewrite !fmap_cons, !filter_cons. case_decide; by rewrite IH.
  - subst a. rewrite fmap_cons, (filter_cons _ (f x)).
    by rewrite decide_False by (by intros ?).
Qed.

Lemma drop_duplicates_fmap {A B} `{EqDecision A} `{EqDecision B}
    (f : A → B) (l : list A) :
  drop_duplicates (f <$> drop_duplicates l) = drop_duplicates (f <$> l).
Proof.
  induction l as [|x l IH]; [done|].
  cbn [drop_duplicates]. rewrite !fmap_cons. cbn [drop_duplicates]. f_equal.
  rewrite <- (drop_duplicates_filter (λ z, z ≠ f x) (f <$> filter _ _)).
  by rewrite filter_fmap_filter, drop_duplicates_filter, IH.
Qed.

Lemma drop_duplicates_repeats {A} `{EqDecision A} (x : A) k (l : list A) :
  drop_duplicates (replicate (S k) x ++ l)
  = x :: filter (λ y, y ≠ x) (drop_duplicates l).
Proof.
  induction k as [|k IH]; [done|].
  change (replicate (S (S k)) x ++ l) with (x :: (replicate (S k) x ++ l)).
  cbn [drop_duplicates]. rewrite IH, filter_cons.
  rewrite decide_False by (by intros ?).
  f_equal. by apply filter_filter_absorb.
Qed.

Lemma pairs_of_hits y t (l : list (Z * string)) :
  (λ r, (Year r, Winner r)) <$> ((λ r, FinalRow y t (Some r.2)) <$> l)
  = replicate (length l) (y, t).
Proof. induction l as [|a l IH]; [done|]. rewrite !fmap_cons, IH. done. Qed.

Lemma join_row_pairs rs w :
  ∃ k, (λ r, (Year r, Winner r)) <$> join_row rs w = replicate (S k) w.
Proof.
  unfold join_row. destruct w as [y t].
  destruct (filter _ rs) as [|h hits]; [by exists O|].
  exists (length hits). apply (pairs_of_hits y t (h :: hits)).
Qed.

Lemma merge_left_pairs ws rs :
  drop_duplicates ((λ r, (Year r, Winner r)) <$> merge_left ws rs)
  = drop_duplicates ws.
Proof.
  unfold merge_left. induction ws as [|w ws IH]; [done|].
  rewrite bind_cons, fmap_app.
  destruct (join_row_pairs rs w) as [k ->].
  rewrite drop_duplicates_repeats, IH. reflexivity.
Qed.

Lemma listed_wins_cons row rows :
  listed_wins (row :: rows)
  = match Team row, cell_years (Years_won row) with
    | Some t, Ok ys => (λ y, (y, t)) <$> ys
    | _, _ => []
    end ++ listed_wins rows.
Proof. reflexivity. Qed.

Lemma omap_winner_entries t ws :
  omap (λ r, pair (df_Year r) <$> df_Winner r)
       (entry_row <$> ((λ y, WinnerEntry y t) <$> ws))
  = match t with Some t' => (λ y, (y, t')) <$> ws | None => [] end.
Proof.
  destruct t as [t'|]; induction ws as [|y ws IH]; simpl in *;
    [done|f_equal; apply IH|done|done].
Qed.

Lemma omap_runner_entries t rs :
  omap (λ r, pair (df_Year r) <$> df_Winner r)
       (entry_row <$> ((λ y, RunnerEntry y t) <$> rs))
  = [].
Proof. induction rs as [|y rs IH]; [done|]. rewrite !fmap_cons. simpl. apply IH. Qed.

Lemma collect_winners rows ms ms' :
  collect rows ms = (ms', Ok tt) →
  omap (λ r, pair (df_Year r) <$> df_Winner r) (entry_row <$> ms')
  = omap (λ r, pair (df_Year r) <$> df_Winner r) (entry_row <$> ms)
    ++ listed_wins rows.
Proof.
  revert ms. induction rows as [|row rows IH]; intros ms.
  - intros [= <-]. by rewrite app_nil_r.
  - cbn [collect]. rewrite listed_wins_cons.
    destruct (cell_years (Years_won row)) as [ws|] eqn:Hw; [|done].
    destruct (cell_years (Years_runners_up row)) as [rs|] eqn:Hr; [|done].
    intros ->%IH.
    rewrite !fmap_app, !omap_app, omap_winner_entries, omap_runner_entries.
    rewrite app_nil_r, <- app_assoc. by destruct (Team row).
Qed.

(** X18.  The rows of [finals_df] come in the order in which the records
    list their wins, record by record (not by year): the (year, winner)
    pairs of the table, in the order of their first appearance, are the
    pairs the records list, in the order of their first appearance. *)
Theorem X18_rows_in_record_order e wc rows :
  finals_from e wc = Ok rows →
  drop_duplicates ((λ r, (Year r, Winner r)) <$> rows)
  = drop_duplicates (listed_wins wc).
Proof.
  intros (ms & ws & rs & Hc & Hws & Hrs & ->)%finals_from_ok.
  rewrite drop_duplicates_fmap, merge_left_pairs. f_equal.
  unfold select_winners, mbind, result_bind in Hws.
  destruct (require_columns _ ["Winner"]); simpl in Hws; [|done].
  destruct (require_columns _ ["Year"; "Winner"]); simpl in Hws; [|done].
  injection Hws as <-. simpl. by rewrite (collect_winners _ _ _ Hc).
Qed.

End OrderRowsFinalsDfFacts.

Lemma X18_witness :
  drop_duplicates
    ((λ r, (Year r, Winner r))
       <$> [ FinalRow 1958 "Brazil" None; FinalRow 1962 "Brazil" None;
             FinalRow 1970 "Brazil" None; FinalRow 1994 "Brazil" None;
             FinalRow 2002 "Brazil" None; FinalRow 1954 "Germany" None;
             FinalRow 1974 "Germany" None; FinalRow 1990 "Germany" None ])
  = drop_duplicates (listed_wins sample_records).
Proof.
  apply (X18_rows_in_record_order unbound). vm_compute. reflexivity.
Defined.

